(** * pywrapper: marshalling between native values and Python objects

    A shallow embedding of [src/Linux/pywrapper.h] (namespace [Python]):
    the [convert] overloads (Python object to native value), the
    [alloc_pyobject] overloads (native value to Python object), the
    argument packing of [Object::call_function], and a reference-count
    model of the allocators.

    The header targets CPython 2.7 on Linux (LP64).  The runtime is
    modelled by the value an object denotes: the primitives of the C API
    that the header calls are functions over that value. *)

From Stdlib Require Import ZArith Floats Ascii String.
From stdpp Require Import gmap strings list sorting.

Local Open Scope Z_scope.
Set Warnings "-register-all".

(** ** Integral types

    The overloads constrained by [std::is_integral<T>].  [bool] and
    [std::vector<char>] have overloads of their own, which overload
    resolution prefers, so they are separate native types below. *)

Inductive integral :=
| SChar | UChar | Short | UShort | Int | UInt | Long | ULong.

#[global] Instance integral_eq_dec : EqDecision integral.
Proof. solve_decision. Defined.

Definition bit_width (T : integral) : Z :=
  match T with
  | SChar | UChar => 8
  | Short | UShort => 16
  | Int | UInt => 32
  | Long | ULong => 64
  end.

Definition is_signed (T : integral) : bool :=
  match T with
  | SChar | Short | Int | Long => true
  | UChar | UShort | UInt | ULong => false
  end.

Definition int_min (T : integral) : Z :=
  if is_signed T then - 2 ^ (bit_width T - 1) else 0.

Definition int_max (T : integral) : Z :=
  if is_signed T then 2 ^ (bit_width T - 1) - 1 else 2 ^ bit_width T - 1.

Definition in_range (T : integral) (x : Z) : Prop :=
  int_min T <= x <= int_max T.

(** Conversion of an integer to the integral type [T]: the unique value
    of [T] congruent to [x] modulo [2 ^ bit_width T]. *)
Definition static_cast (T : integral) (x : Z) : Z :=
  let m := 2 ^ bit_width T in
  if is_signed T then (x + m / 2) mod m - m / 2 else x mod m.

(** ** Python objects *)

(** The slots of a tuple or a list hold an object or NULL ([None]):
    [PyTuple_New] and [PyList_New] return a container of NULL slots,
    which the [SetItem] calls fill.  A dictionary is the sequence of its
    entries in the order [PyDict_Next] yields them. *)
Inductive PyObject :=
| PyNone
| PyBool (b : bool)
| PyInt (ob_ival : Z)
| PyFloat (ob_fval : float)
| PyString (ob_sval : string)
| PyTuple (ob_item : list (option PyObject))
| PyList (ob_item : list (option PyObject))
| PyDict (ma_table : list (PyObject * PyObject)).

(** [PyInt_Check] accepts [int] and its subclasses; [bool] is one. *)
Definition PyInt_Check (obj : PyObject) : bool :=
  match obj with PyInt _ | PyBool _ => true | _ => false end.

Definition PyInt_AsLong (obj : PyObject) : Z :=
  match obj with
  | PyInt n => n
  | PyBool b => if b then 1 else 0
  | _ => -1
  end.

Definition PyInt_FromLong (ival : Z) : PyObject := PyInt ival.

Definition PyBool_Check (obj : PyObject) : bool :=
  match obj with PyBool _ => true | _ => false end.

Definition PyFloat_Check (obj : PyObject) : bool :=
  match obj with PyFloat _ => true | _ => false end.

Definition PyString_Check (obj : PyObject) : bool :=
  match obj with PyString _ => true | _ => false end.

Definition PyTuple_Check (obj : PyObject) : bool :=
  match obj with PyTuple _ => true | _ => false end.

Definition PyList_Check (obj : PyObject) : bool :=
  match obj with PyList _ => true | _ => false end.

Definition PyDict_Check (obj : PyObject) : bool :=
  match obj with PyDict _ => true | _ => false end.

Definition PyTuple_Size (obj : PyObject) : Z :=
  match obj with PyTuple items => Z.of_nat (length items) | _ => -1 end.

(** [None] is NULL: the slot is empty or the index is out of range. *)
Definition PyTuple_GetItem (obj : PyObject) (pos : nat) : option PyObject :=
  match obj with PyTuple items => mjoin (items !! pos) | _ => None end.

Definition PyList_Size (obj : PyObject) : Z :=
  match obj with PyList items => Z.of_nat (length items) | _ => -1 end.

Definition PyList_GetItem (obj : PyObject) (pos : nat) : option PyObject :=
  match obj with PyList items => mjoin (items !! pos) | _ => None end.

(** ** Native types

    A descriptor for each type that has a [convert] overload.  A tuple
    type [std::tuple<A0, ..., An>] is [TSnoc (... (TOne A0) ...) An]: the
    recursion of [add_to_tuple<n>] peels the last element type. *)

Inductive ntype :=
| TBool
| TInt (T : integral)
| TDouble
| TString
| TBytes
| TTuple (ts : tuple_types)
| TList (t : ntype)
| TVector (t : ntype)
| TMap (k v : ntype)
with tuple_types :=
| TOne (t : ntype)
| TSnoc (ts : tuple_types) (t : ntype).

(** [sizeof...(Args)] *)
Fixpoint arity (ts : tuple_types) : nat :=
  match ts with
  | TOne _ => 1
  | TSnoc ts' _ => S (arity ts')
  end.

(** The values of a native type.  [std::list] and [std::vector] are
    sequences; a [std::map] is the sequence of its entries in iteration
    order, that is, in ascending key order. *)
Fixpoint nval (t : ntype) : Type :=
  match t with
  | TBool => bool
  | TInt _ => Z
  | TDouble => float
  | TString => string
  | TBytes => list ascii
  | TTuple ts => tval ts
  | TList t' | TVector t' => list (nval t')
  | TMap k v => list (nval k * nval v)
  end
with tval (ts : tuple_types) : Type :=
  match ts with
  | TOne t => nval t
  | TSnoc ts' t => (tval ts' * nval t)%type
  end.

(** The value of a variable declared [T val;].  Scalars are left
    uninitialised by the declaration; every path of the header assigns
    them before they are read, so a fixed value stands for them.  Tuples
    value-initialise their elements and containers start empty. *)
Fixpoint default_val (t : ntype) : nval t :=
  match t with
  | TBool => false
  | TInt _ => 0
  | TDouble => 0%float
  | TString => EmptyString
  | TBytes => []
  | TTuple ts => default_tup ts
  | TList _ | TVector _ => []
  | TMap _ _ => []
  end
with default_tup (ts : tuple_types) : tval ts :=
  match ts with
  | TOne t => default_val t
  | TSnoc ts' t => (default_tup ts', default_val t)
  end.

(** ** Ordering of native values ([operator<])

    [std::map] orders its keys with [std::less<K>], which is [operator<]
    of the key type. *)

(** [std::lexicographical_compare] *)
Fixpoint lexicographical_compare {A} (lt : A -> A -> bool) (l1 l2 : list A) : bool :=
  match l1, l2 with
  | _, [] => false
  | [], _ :: _ => true
  | a :: l1', b :: l2' =>
      if lt a b then true
      else if lt b a then false
      else lexicographical_compare lt l1' l2'
  end.

(** [operator<] of [std::pair] *)
Definition pair_less {A B} (lta : A -> A -> bool) (ltb : B -> B -> bool)
    (p q : A * B) : bool :=
  lta p.1 q.1 || (negb (lta q.1 p.1) && ltb p.2 q.2).

(** [std::string] compares its bytes as [unsigned char]. *)
Definition uchar_of (c : ascii) : Z := Z.of_N (N_of_ascii c).

(** [char] is signed on this platform. *)
Definition char_of (c : ascii) : Z := static_cast SChar (uchar_of c).

Fixpoint less (t : ntype) : nval t -> nval t -> bool :=
  match t return nval t -> nval t -> bool with
  | TBool => fun a b => negb a && b
  | TInt _ => Z.ltb
  | TDouble => PrimFloat.ltb
  | TString => fun a b =>
      lexicographical_compare (fun x y => uchar_of x <? uchar_of y)
        (list_ascii_of_string a) (list_ascii_of_string b)
  | TBytes => lexicographical_compare (fun x y => char_of x <? char_of y)
  | TTuple ts => tuple_less ts
  | TList t' | TVector t' => lexicographical_compare (less t')
  | TMap k v => lexicographical_compare (pair_less (less k) (less v))
  end
with tuple_less (ts : tuple_types) : tval ts -> tval ts -> bool :=
  match ts return tval ts -> tval ts -> bool with
  | TOne t => less t
  | TSnoc ts' t => pair_less (tuple_less ts') (less t)
  end.

(** ** std::map

    [mp.insert(std::make_pair(key, val))]: the entry goes to its place in
    key order; when an equivalent key is present the map is unchanged. *)
Fixpoint map_insert {K V} (lt : K -> K -> bool) (key : K) (val : V)
    (mp : list (K * V)) : list (K * V) :=
  match mp with
  | [] => [(key, val)]
  | (k, v) :: mp' =>
      if lt key k then (key, val) :: mp
      else if lt k key then (k, v) :: map_insert lt key val mp'
      else mp
  end.

(** ** Conversion functions: Python object to native value

    [convert(obj, val)] writes through the reference [val] and returns a
    [bool].  Here it returns the [bool] together with the value [val]
    holds afterwards. *)

(** [convert] for any integral type. *)
Definition convert_integral (T : integral) (obj : PyObject) (val : Z) : bool * Z :=
  if negb (PyInt_Check obj) then (false, val)
  else (true, static_cast T (PyInt_AsLong obj)).

(** Modelled from the spec: [convert(PyObject*, bool&)] is declared in the
    header and defined in a source file that is not part of [src/].  The
    spec: the decoder checks the runtime type tag, returns false without
    touching the output on a mismatch, and extracts the value on a match. *)
Definition convert_bool (obj : PyObject) (value : bool) : bool * bool :=
  match obj with
  | PyBool b => (true, b)
  | _ => (false, value)
  end.

(** Modelled from the spec: [convert(PyObject*, double&)], declared only. *)
Definition convert_double (obj : PyObject) (val : float) : bool * float :=
  match obj with
  | PyFloat d => (true, d)
  | _ => (false, val)
  end.

(** Modelled from the spec: [convert(PyObject*, std::string&)], declared
    only. *)
Definition convert_string (obj : PyObject) (val : string) : bool * string :=
  match obj with
  | PyString s => (true, s)
  | _ => (false, val)
  end.

(** Modelled from the spec: [convert(PyObject*, std::vector<char>&)],
    declared only; the native copy has the length of the object's
    storage. *)
Definition convert_bytes (obj : PyObject) (val : list ascii) : bool * list ascii :=
  match obj with
  | PyString s => (true, list_ascii_of_string s)
  | _ => (false, val)
  end.

(** The loop of [convert_list]: the items at indices [0 .. size-1], in
    ascending order, each converted into a fresh [T val] and pushed back.
    An empty slot is not an object the converters can inspect; the loop
    stops there with false. *)
Fixpoint convert_items {T} (conv : PyObject -> T -> bool * T) (fresh : T)
    (items : list (option PyObject)) (container : list T) : bool * list T :=
  match items with
  | [] => (true, container)
  | None :: _ => (false, container)
  | Some item :: rest =>
      let (ok, val) := conv item fresh in
      if negb ok then (false, container)
      else convert_items conv fresh rest (container ++ [val])
  end.

Definition convert_list {T} (conv : PyObject -> T -> bool * T) (fresh : T)
    (obj : PyObject) (container : list T) : bool * list T :=
  match obj with
  | PyList items => convert_items conv fresh items container
  | _ => (false, container)
  end.

(** The loop of the [std::map] overload: [PyDict_Next] yields the entries
    of the dictionary in the order of its table. *)
Fixpoint convert_entries {K V} (convk : PyObject -> K -> bool * K) (freshk : K)
    (convv : PyObject -> V -> bool * V) (freshv : V) (lt : K -> K -> bool)
    (entries : list (PyObject * PyObject)) (mp : list (K * V)) : bool * list (K * V) :=
  match entries with
  | [] => (true, mp)
  | (py_key, py_val) :: rest =>
      let (okk, key) := convk py_key freshk in
      if negb okk then (false, mp)
      else
        let (okv, val) := convv py_val freshv in
        if negb okv then (false, mp)
        else convert_entries convk freshk convv freshv lt rest
               (map_insert lt key val mp)
  end.

Definition convert_map {K V} (convk : PyObject -> K -> bool * K) (freshk : K)
    (convv : PyObject -> V -> bool * V) (freshv : V) (lt : K -> K -> bool)
    (obj : PyObject) (mp : list (K * V)) : bool * list (K * V) :=
  match obj with
  | PyDict entries => convert_entries convk freshk convv freshv lt entries mp
  | _ => (false, mp)
  end.

(** [convert] and [add_to_tuple<n>], with [n = arity ts - 1].  In the
    [n != 0] case the result of the recursive call is dropped, as in the
    source; only the tuple it filled is kept. *)
Fixpoint convert (t : ntype) : PyObject -> nval t -> bool * nval t :=
  match t return PyObject -> nval t -> bool * nval t with
  | TBool => convert_bool
  | TInt T => convert_integral T
  | TDouble => convert_double
  | TString => convert_string
  | TBytes => convert_bytes
  | TTuple ts => fun obj tup =>
      if negb (PyTuple_Check obj) || negb (PyTuple_Size obj =? Z.of_nat (arity ts))
      then (false, tup)
      else add_to_tuple ts obj tup
  | TList t' | TVector t' => convert_list (convert t') (default_val t')
  | TMap k v =>
      convert_map (convert k) (default_val k) (convert v) (default_val v) (less k)
  end
with add_to_tuple (ts : tuple_types) : PyObject -> tval ts -> bool * tval ts :=
  match ts return PyObject -> tval ts -> bool * tval ts with
  | TOne t => fun obj tup =>
      match PyTuple_GetItem obj 0 with
      | Some item => convert t item tup
      | None => (false, tup)
      end
  | TSnoc ts' t => fun obj tup =>
      let (_, front) := add_to_tuple ts' obj tup.1 in
      match PyTuple_GetItem obj (arity ts') with
      | Some item =>
          let (ok, last) := convert t item tup.2 in (ok, (front, last))
      | None => (false, (front, tup.2))
      end
  end.

(** ** Dictionaries of the runtime *)

(** Lists and dictionaries are unhashable; a tuple is hashable when its
    items are. *)
Fixpoint py_hashable (obj : PyObject) : bool :=
  match obj with
  | PyList _ | PyDict _ => false
  | PyTuple items =>
      forallb (fun slot => match slot with
                           | Some item => py_hashable item
                           | None => false
                           end) items
  | _ => true
  end.

(** Whether the float [d] has exactly the integer value [n]. *)
Definition float_eq_long (d : float) (n : Z) : bool :=
  match Prim2SF d with
  | S754_zero _ => n =? 0
  | S754_finite s m e =>
      let a := if s then Z.neg m else Z.pos m in
      if 0 <=? e then a * 2 ^ e =? n else a =? n * 2 ^ (- e)
  | _ => false
  end.

(** Equality of keys ([==] of the runtime on hashable objects): numbers
    compare by value across [bool], [int] and [float]. *)
Fixpoint py_eq (a b : PyObject) {struct a} : bool :=
  match a, b with
  | PyNone, PyNone => true
  | (PyBool _ | PyInt _), (PyBool _ | PyInt _) => PyInt_AsLong a =? PyInt_AsLong b
  | (PyBool _ | PyInt _), PyFloat y => float_eq_long y (PyInt_AsLong a)
  | PyFloat x, (PyBool _ | PyInt _) => float_eq_long x (PyInt_AsLong b)
  | PyFloat x, PyFloat y => PrimFloat.eqb x y
  | PyString s, PyString s' => String.eqb s s'
  | PyTuple l, PyTuple l' =>
      (fix items_eq (l l' : list (option PyObject)) : bool :=
         match l, l' with
         | [], [] => true
         | Some x :: r, Some y :: r' => py_eq x y && items_eq r r'
         | _, _ => false
         end) l l'
  | _, _ => false
  end.

(** Replaces the value stored under a key equal to [key], if there is
    one; the entry keeps its place. *)
Fixpoint dict_update (key val : PyObject) (table : list (PyObject * PyObject))
    : option (list (PyObject * PyObject)) :=
  match table with
  | [] => None
  | (k, v) :: rest =>
      if py_eq k key then Some ((k, val) :: rest)
      else ((k, v) ::.) <$> dict_update key val rest
  end.

Definition PyDict_New : PyObject := PyDict [].

Definition PyList_New (len : nat) : PyObject := PyList (replicate len None).

(** An index out of range leaves the list as it is (the call reports an
    error, which the header does not read). *)
Definition PyList_SetItem (lst : PyObject) (i : nat) (item : PyObject) : PyObject :=
  match lst with
  | PyList items => PyList (<[i := Some item]> items)
  | _ => lst
  end.

Section Allocators.

(** The order in which a dictionary holds its entries after a new key
    went in is the hash table's business: [dict_order] maps the entries
    in insertion order to the order of the table. *)
Variable dict_order : list (PyObject * PyObject) -> list (PyObject * PyObject).

(** [PyDict_SetItem] refuses an unhashable key; the header ignores the
    error, so the dictionary is returned as it was. *)
Definition PyDict_SetItem (dict key val : PyObject) : PyObject :=
  match dict with
  | PyDict table =>
      if negb (py_hashable key) then dict
      else match dict_update key val table with
           | Some table' => PyDict table'
           | None => PyDict (dict_order (table ++ [(key, val)]))
           end
  | _ => dict
  end.

(** *** PyObject allocators: native value to Python object *)

(** The loop of [alloc_list]: the elements in iteration order, the
    element at iterator position [i] stored into slot [i]. *)
Fixpoint alloc_list_items {T} (alloc : T -> PyObject) (container : list T)
    (i : nat) (lst : PyObject) : PyObject :=
  match container with
  | [] => lst
  | x :: rest => alloc_list_items alloc rest (S i) (PyList_SetItem lst i (alloc x))
  end.

Definition alloc_list {T} (alloc : T -> PyObject) (container : list T) : PyObject :=
  alloc_list_items alloc container 0 (PyList_New (length container)).

(** The loop of the [std::map] overload. *)
Fixpoint alloc_map_entries {K V} (allock : K -> PyObject) (allocv : V -> PyObject)
    (container : list (K * V)) (dict : PyObject) : PyObject :=
  match container with
  | [] => dict
  | (k, v) :: rest =>
      alloc_map_entries allock allocv rest (PyDict_SetItem dict (allock k) (allocv v))
  end.

Definition alloc_map {K V} (allock : K -> PyObject) (allocv : V -> PyObject)
    (container : list (K * V)) : PyObject :=
  alloc_map_entries allock allocv container PyDict_New.

(** [alloc_pyobject] for any integral type: the argument is converted to
    the [long] parameter of [PyInt_FromLong]. *)
Definition alloc_integral (T : integral) (num : Z) : PyObject :=
  PyInt_FromLong (static_cast Long num).

(** Modelled from the spec: [alloc_pyobject(bool)], declared in the
    header and defined in a source file that is not part of [src/].  The
    spec: the encoder is the inverse mapping and produces a new object of
    the matching runtime type. *)
Definition alloc_bool (value : bool) : PyObject := PyBool value.

(** Modelled from the spec: [alloc_pyobject(double)], declared only. *)
Definition alloc_double (num : float) : PyObject := PyFloat num.

(** Modelled from the spec: [alloc_pyobject(const std::string&)], declared
    only. *)
Definition alloc_string (str : string) : PyObject := PyString str.

(** Modelled from the spec: [alloc_pyobject(const std::vector<char>&)],
    declared only; it copies the full buffer. *)
Definition alloc_bytes (val : list ascii) : PyObject :=
  PyString (string_of_list_ascii val).

(** Modelled from the spec:
    [alloc_pyobject(const std::vector<char>&, size_t sz)], declared only;
    it copies the first [sz] bytes. *)
Definition alloc_bytes_prefix (val : list ascii) (sz : nat) : PyObject :=
  PyString (string_of_list_ascii (take sz val)).

(** The native types that have an [alloc_pyobject] overload.  There is
    none for [std::tuple]. *)
Inductive etype :=
| EBool
| EInt (T : integral)
| EDouble
| EString
| EBytes
| EList (e : etype)
| EVector (e : etype)
| EMap (k v : etype).

Fixpoint ntype_of (e : etype) : ntype :=
  match e with
  | EBool => TBool
  | EInt T => TInt T
  | EDouble => TDouble
  | EString => TString
  | EBytes => TBytes
  | EList e' => TList (ntype_of e')
  | EVector e' => TVector (ntype_of e')
  | EMap k v => TMap (ntype_of k) (ntype_of v)
  end.

Fixpoint alloc_pyobject (e : etype) : nval (ntype_of e) -> PyObject :=
  match e return nval (ntype_of e) -> PyObject with
  | EBool => alloc_bool
  | EInt T => alloc_integral T
  | EDouble => alloc_double
  | EString => alloc_string
  | EBytes => alloc_bytes
  | EList e' | EVector e' => alloc_list (alloc_pyobject e')
  | EMap k v => alloc_map (alloc_pyobject k) (alloc_pyobject v)
  end.

(** [entry] is the pair of objects that encodes the native entry [e]. *)
Definition encodes_entry (k v : etype) (entry : PyObject * PyObject)
    (e : nval (ntype_of k) * nval (ntype_of v)) : Prop :=
  entry = (alloc_pyobject k e.1, alloc_pyobject v e.2).

End Allocators.

(** ** Object::call_function *)

Definition PyTuple_New (len : nat) : PyObject := PyTuple (replicate len None).

(** [PyTuple_SetItem] with a [Py_ssize_t] index: out of range, the tuple
    is left as it is. *)
Definition PyTuple_SetItem (tup : PyObject) (i : Z) (item : PyObject) : PyObject :=
  match tup with
  | PyTuple items =>
      if (0 <=? i) && (i <? Z.of_nat (length items))
      then PyTuple (<[Z.to_nat i := Some item]> items)
      else tup
  | _ => tup
  end.

(** [class Object]: [py_obj] is the shared pointer, empty for a default
    constructed object. *)
Record Object := { py_obj : option PyObject }.

(** [Object(PyObject *obj)] *)
Definition Object_from (obj : PyObject) : Object := {| py_obj := Some obj |}.

(** [Object::convert<T>]: forwards to [Python::convert] on the pointer
    the object holds.  An empty [Object] holds a null pointer, which the
    converters cannot inspect: no result is defined for it. *)
Definition Object_convert (t : ntype) (self : Object) (param : nval t)
    : option (bool * nval t) :=
  match py_obj self with
  | Some obj => Some (convert t obj param)
  | None => None
  end.

(** [std::runtime_error], the only exception the header throws. *)
Inductive exception := runtime_error (what : string).

Section CallFunction.

Variable dict_order : list (PyObject * PyObject) -> list (PyObject * PyObject).

(** [load_function] is declared in the class and defined in a source
    file that is not part of [src/]: it yields the callable attribute or
    throws. *)
Variable load_function : Object -> string -> exception + PyObject.

(** [PyObject_CallObject(callable, args)] of the runtime; [None] is the
    NULL it returns when the call fails. *)
Variable PyObject_CallObject : PyObject -> PyObject -> option PyObject.

(** An argument of [call_function]: a [PyObject*], which is stored as it
    is, or a native value, which goes through [alloc_pyobject]. *)
Inductive argument :=
| ArgObject (pobj : PyObject)
| ArgNative (e : etype) (data : nval (ntype_of e)).

(** The object an argument contributes to the call tuple. *)
Definition argument_object (a : argument) : PyObject :=
  match a with
  | ArgObject pobj => pobj
  | ArgNative e data => alloc_pyobject dict_order e data
  end.

(** The two [add_tuple_var] overloads. *)
Definition add_tuple_var (tup : PyObject) (i : Z) (a : argument) : PyObject :=
  match a with
  | ArgObject pobj => PyTuple_SetItem tup i pobj
  | ArgNative e data => PyTuple_SetItem tup i (alloc_pyobject dict_order e data)
  end.

(** [add_tuple_vars(tup, head, tail...)]; the overloads for a single
    argument are the case of an empty [tail]. *)
Fixpoint add_tuple_vars (tup : PyObject) (head : argument) (tail : list argument)
    : PyObject :=
  match tail with
  | [] => add_tuple_var tup (PyTuple_Size tup - 1) head
  | next :: rest =>
      add_tuple_vars
        (add_tuple_var tup (PyTuple_Size tup - Z.of_nat (length tail) - 1) head)
        next rest
  end.

(** The tuple [call_function] hands to the runtime.  The form without
    arguments is declared in the class and defined elsewhere; by the
    spec it takes the same path with an empty tuple. *)
Definition call_tuple (args : list argument) : PyObject :=
  match args with
  | [] => PyTuple_New 0
  | head :: tail => add_tuple_vars (PyTuple_New (length args)) head tail
  end.

Definition call_function (self : Object) (name : string) (args : list argument)
    : exception + Object :=
  match load_function self name with
  | inl e => inl e
  | inr func =>
      match PyObject_CallObject func (call_tuple args) with
      | None => inl (runtime_error ("Failed to call function " ++ name))
      | Some ret => inr (Object_from ret)
      end
  end.

End CallFunction.

(** ** Reference counts of the objects the allocators create

    The same allocators, over a store of reference-counted objects. *)

Module Refcount.

Definition addr := nat.

(** What an object holds: a scalar holds no reference, a list holds one
    per filled slot, a dictionary one per key and one per value. *)
Inductive shape :=
| Scalar (v : PyObject)
| ListOf (ob_item : list (option addr))
| DictOf (ma_table : list (addr * addr)).

Record object := { ob_refcnt : Z; ob_shape : shape }.

Record heap := { objects : gmap addr object; next_addr : addr }.

(** The runtime keeps one shared object for each integer from [-5] to
    [256], made when the interpreter starts; its table of small integers
    holds one reference to each.  The shared object for [ival] lies at
    address [ival + 5]. *)
Definition NSMALLNEGINTS : Z := 5.
Definition NSMALLPOSINTS : Z := 257.

Definition small_int (ival : Z) : option addr :=
  if (- NSMALLNEGINTS <=? ival) && (ival <? NSMALLPOSINTS)
  then Some (Z.to_nat (ival + NSMALLNEGINTS))
  else None.

Definition small_int_object (a : addr) : object :=
  {| ob_refcnt := 1; ob_shape := Scalar (PyInt (Z.of_nat a - NSMALLNEGINTS)) |}.

(** The store of a runtime that has just started. *)
Definition initial_heap : heap :=
  {| objects := list_to_map ((fun a => (a, small_int_object a)) <$> seq 0 262);
     next_addr := 262%nat |}.

(** A runtime call: it may fail ([None]) when a released object is
    used or the store cannot finish a release. *)
Definition M (A : Type) : Type := heap -> option (A * heap).

Definition ret {A} (x : A) : M A := fun h => Some (x, h).

Definition bind {A B} (m : M A) (f : A -> M B) : M B :=
  fun h => match m h with
           | Some (x, h') => f x h'
           | None => None
           end.

Notation "x <- m ;; k" := (bind m (fun x => k))
  (at level 100, m at next level, right associativity).
Notation "m ;;; k" := (bind m (fun _ => k))
  (at level 100, right associativity).

Definition set_object (a : addr) (o : object) : M unit :=
  fun h => Some (tt, {| objects := <[a := o]> (objects h); next_addr := next_addr h |}).

Definition get_object (a : addr) : M object :=
  fun h => match objects h !! a with
           | Some o => Some (o, h)
           | None => None
           end.

(** A new object comes with one reference, owned by the caller. *)
Definition new_object (s : shape) : M addr :=
  fun h => Some (next_addr h,
                 {| objects := <[next_addr h := {| ob_refcnt := 1; ob_shape := s |}]> (objects h);
                    next_addr := S (next_addr h) |}).

Definition Py_INCREF (a : addr) : M unit :=
  o <- get_object a ;;
  set_object a {| ob_refcnt := ob_refcnt o + 1; ob_shape := ob_shape o |}.

Definition references_of (s : shape) : list addr :=
  match s with
  | Scalar _ => []
  | ListOf items => omap id items
  | DictOf table => flat_map (fun e => [e.1; e.2]) table
  end.

(** [Py_DECREF] on each of [pending]: an object whose count drops to zero
    is deallocated, which releases the references it holds. *)
Fixpoint release (fuel : nat) (pending : list addr) (h : heap) : option heap :=
  match pending with
  | [] => Some h
  | a :: rest =>
      match fuel with
      | O => None
      | S fuel' =>
          match objects h !! a with
          | None => None
          | Some o =>
              let n := ob_refcnt o - 1 in
              if n =? 0
              then release fuel' (references_of (ob_shape o) ++ rest)
                     {| objects := delete a (objects h); next_addr := next_addr h |}
              else release fuel' rest
                     {| objects := <[a := {| ob_refcnt := n; ob_shape := ob_shape o |}]> (objects h);
                        next_addr := next_addr h |}
          end
      end
  end.

(** The references held in the store: a bound on the steps of a release. *)
Definition total_refcnt (h : heap) : nat :=
  map_fold (fun _ o n => (Z.to_nat (ob_refcnt o) + n)%nat) 0%nat (objects h).

Definition Py_DECREF (a : addr) : M unit :=
  fun h => match release (S (total_refcnt h)) [a] h with
           | Some h' => Some (tt, h')
           | None => None
           end.

(** [PyInt_FromLong] returns a new reference: to the shared object when
    [ival] is a small integer, to a new object otherwise. *)
Definition PyInt_FromLong (ival : Z) : M addr :=
  match small_int ival with
  | Some a => Py_INCREF a ;;; ret a
  | None => new_object (Scalar (PyInt ival))
  end.

Definition PyList_New (len : nat) : M addr := new_object (ListOf (replicate len None)).

(** [PyList_SetItem] steals the reference to [item]: the list takes over
    the caller's reference and the count of [item] does not change.  The
    object that was in the slot is released. *)
Definition PyList_SetItem (lst : addr) (i : nat) (item : addr) : M unit :=
  o <- get_object lst ;;
  match ob_shape o with
  | ListOf items =>
      match items !! i with
      | Some old =>
          set_object lst {| ob_refcnt := ob_refcnt o; ob_shape := ListOf (<[i := Some item]> items) |} ;;;
          match old with
          | Some old_item => Py_DECREF old_item
          | None => ret tt
          end
      | None => Py_DECREF item
      end
  | _ => Py_DECREF item
  end.

Definition PyDict_New : M addr := new_object (DictOf []).

Definition scalar_of (o : object) : option PyObject :=
  match ob_shape o with Scalar v => Some v | _ => None end.

(** The entry whose key equals the scalar [key], if any. *)
Fixpoint find_key (h : heap) (key : PyObject) (table : list (addr * addr)) : option nat :=
  match table with
  | [] => None
  | (k, _) :: rest =>
      match objects h !! k ≫= scalar_of with
      | Some v => if py_eq v key then Some 0%nat else S <$> find_key h key rest
      | None => S <$> find_key h key rest
      end
  end.

(** [PyDict_SetItem] does not steal: the dictionary takes references of
    its own to [key] and [val], and the caller keeps the ones it holds.
    An unhashable key is refused and nothing changes. *)
Definition PyDict_SetItem (dict key val : addr) : M unit :=
  d <- get_object dict ;;
  k <- get_object key ;;
  match ob_shape d, ob_shape k with
  | DictOf table, Scalar kv =>
      if negb (py_hashable kv) then ret tt
      else fun h =>
        match find_key h kv table with
        | Some i =>
            match table !! i with
            | Some (k0, v0) =>
                (Py_INCREF val ;;;
                 set_object dict {| ob_refcnt := ob_refcnt d;
                                    ob_shape := DictOf (<[i := (k0, val)]> table) |} ;;;
                 Py_DECREF v0) h
            | None => None
            end
        | None =>
            (Py_INCREF key ;;;
             Py_INCREF val ;;;
             set_object dict {| ob_refcnt := ob_refcnt d;
                                ob_shape := DictOf (table ++ [(key, val)]) |}) h
        end
  | _, _ => ret tt
  end.

(** [alloc_list] *)
Fixpoint alloc_list_items {T} (alloc : T -> M addr) (container : list T)
    (i : nat) (lst : addr) : M unit :=
  match container with
  | [] => ret tt
  | x :: rest =>
      item <- alloc x ;;
      PyList_SetItem lst i item ;;;
      alloc_list_items alloc rest (S i) lst
  end.

Definition alloc_list {T} (alloc : T -> M addr) (container : list T) : M addr :=
  lst <- PyList_New (length container) ;;
  alloc_list_items alloc container 0 lst ;;;
  ret lst.

(** The [std::map] overload: the two objects [alloc_pyobject] returns
    are passed to [PyDict_SetItem] and not referred to again. *)
Fixpoint alloc_map_entries {K V} (allock : K -> M addr) (allocv : V -> M addr)
    (container : list (K * V)) (dict : addr) : M unit :=
  match container with
  | [] => ret tt
  | (k, v) :: rest =>
      key <- allock k ;;
      val <- allocv v ;;
      PyDict_SetItem dict key val ;;;
      alloc_map_entries allock allocv rest dict
  end.

Definition alloc_map {K V} (allock : K -> M addr) (allocv : V -> M addr)
    (container : list (K * V)) : M addr :=
  dict <- PyDict_New ;;
  alloc_map_entries allock allocv container dict ;;;
  ret dict.

(** The overloads of [alloc_pyobject] that the header defines: the
    integral types, the sequences and the maps. *)
Inductive htype :=
| HInt (T : integral)
| HList (e : htype)
| HVector (e : htype)
| HMap (k v : htype).

Fixpoint etype_of (e : htype) : etype :=
  match e with
  | HInt T => EInt T
  | HList e' => EList (etype_of e')
  | HVector e' => EVector (etype_of e')
  | HMap k v => EMap (etype_of k) (etype_of v)
  end.

Definition hval (e : htype) : Type := nval (ntype_of (etype_of e)).

Fixpoint alloc_pyobject (e : htype) : hval e -> M addr :=
  match e return hval e -> M addr with
  | HInt T => fun num => PyInt_FromLong (static_cast Long num)
  | HList e' | HVector e' => alloc_list (alloc_pyobject e')
  | HMap k v => alloc_map (alloc_pyobject k) (alloc_pyobject v)
  end.

(** The number of references to [a] that the objects of the store hold. *)
Definition held_refs (h : heap) (a : addr) : nat :=
  map_fold (fun _ o n =>
              (length (filter (fun b => b = a) (references_of (ob_shape o))) + n)%nat)
    0%nat (objects h).

End Refcount.

(** ** Vocabulary of the properties *)

(** The scalar native types and the runtime type each of their decoders
    asks the object for. *)
Inductive scalar := SBool | SInt (T : integral) | SDouble | SString | SBytes.

Definition scalar_type (s : scalar) : ntype :=
  match s with
  | SBool => TBool
  | SInt T => TInt T
  | SDouble => TDouble
  | SString => TString
  | SBytes => TBytes
  end.

Definition tag_matches (s : scalar) (obj : PyObject) : bool :=
  match s with
  | SBool => PyBool_Check obj
  | SInt _ => PyInt_Check obj
  | SDouble => PyFloat_Check obj
  | SString | SBytes => PyString_Check obj
  end.

(** [decodes conv fresh items vals]: each object of [items] converts,
    from a fresh variable, to the value of [vals] at the same position. *)
Definition decodes {T} (conv : PyObject -> T -> bool * T) (fresh : T)
    (items : list PyObject) (vals : list T) : Prop :=
  Forall2 (fun item val => conv item fresh = (true, val)) items vals.

(** The [std::list] and the [std::vector] overload, which both forward
    to [convert_list]. *)
Definition convert_sequence (as_list : bool) (t : ntype)
    : PyObject -> list (nval t) -> bool * list (nval t) :=
  if as_list then convert (TList t) else convert (TVector t).

(** The entries of a [std::map] after inserting [ents], in order. *)
Definition insert_all {K V} (lt : K -> K -> bool) (ents : list (K * V))
    (mp : list (K * V)) : list (K * V) :=
  foldl (fun m e => map_insert lt e.1 e.2 m) mp ents.

Definition decodes_entry (k v : ntype) (entry : PyObject * PyObject)
    (e : nval k * nval v) : Prop :=
  convert k entry.1 (default_val k) = (true, e.1) /\
  convert v entry.2 (default_val v) = (true, e.2).

(** [lt] is a strict total order: what [std::map] needs of [operator<]
    for equivalent keys to be equal keys. *)
Record strict_total {A} (lt : A -> A -> bool) : Prop := {
  lt_irrefl : forall a, lt a a = false;
  lt_trans : forall a b c, lt a b = true -> lt b c = true -> lt a c = true;
  lt_total : forall a b, lt a b = false -> lt b a = false -> a = b
}.

(** The invariant of a [std::map]: its entries are in strictly ascending
    key order. *)
Definition key_sorted {K V} (lt : K -> K -> bool) (mp : list (K * V)) : Prop :=
  StronglySorted (fun a b => lt a.1 b.1 = true) mp.

(** The key types whose objects the runtime can hash and whose
    [operator<] is a strict total order on the values the round trip
    concerns. *)
Definition key_type (e : etype) : bool :=
  match e with
  | EBool | EInt _ | EString | EBytes => true
  | _ => false
  end.


(** The values a C++ program can hold: integers within the range of
    their type, maps in strictly ascending key order. *)
Fixpoint well_formed (e : etype) : nval (ntype_of e) -> Prop :=
  match e return nval (ntype_of e) -> Prop with
  | EInt T => in_range T
  | EList e' | EVector e' => Forall (well_formed e')
  | EMap k v => fun mp =>
      Forall (fun entry => well_formed k entry.1 /\ well_formed v entry.2) mp /\
      key_sorted (less (ntype_of k)) mp
  | _ => fun _ => True
  end.


(** [tuple_decodes ts items tup res]: [items] has one object per element
    type of [ts], and each object converts, into the element of [tup] at
    its position, to the element of [res] at that position. *)
Fixpoint tuple_decodes (ts : tuple_types)
    : list PyObject -> tval ts -> tval ts -> Prop :=
  match ts return list PyObject -> tval ts -> tval ts -> Prop with
  | TOne t => fun items tup res =>
      exists item, items = [item] /\ convert t item tup = (true, res)
  | TSnoc ts' t => fun items tup res =>
      exists front item,
        items = front ++ [item] /\
        tuple_decodes ts' front tup.1 res.1 /\
        convert t item tup.2 = (true, res.2)
  end.

(** The native types whose encoding is a list or a dictionary. *)
Definition container_type (e : etype) : bool :=
  match e with
  | EList _ | EVector _ | EMap _ _ => true
  | _ => false
  end.

(** A store in which no object lies at or beyond the allocation mark. *)
Definition heap_closed (h : Refcount.heap) : Prop :=
  forall a, (Refcount.next_addr h <= a)%nat -> Refcount.objects h !! a = None.

(** The references to [a] that an object of shape [s] holds. *)
Definition count_refs (a : Refcount.addr) (s : Refcount.shape) : nat :=
  length (filter (fun b => b = a) (Refcount.references_of s)).

(** * Properties *)

(** ** Integral conversion *)

(** Case analysis on an integral type, with the powers of two of its
    width computed. *)
Ltac integral_cases T :=
  destruct T; simpl is_signed; simpl bit_width; cbv iota;
  change (2 ^ 8 / 2) with 128 in *; change (2 ^ (8 - 1)) with 128 in *;
  change (2 ^ 8) with 256 in *;
  change (2 ^ 16 / 2) with 32768 in *; change (2 ^ (16 - 1)) with 32768 in *;
  change (2 ^ 16) with 65536 in *;
  change (2 ^ 32 / 2) with 2147483648 in *;
  change (2 ^ (32 - 1)) with 2147483648 in *;
  change (2 ^ 32) with 4294967296 in *;
  change (2 ^ 64 / 2) with 9223372036854775808 in *;
  change (2 ^ (64 - 1)) with 9223372036854775808 in *;
  change (2 ^ 64) with 18446744073709551616 in *.

Lemma static_cast_range (T : integral) (x : Z) : in_range T (static_cast T x).
Proof.
  unfold in_range, static_cast, int_min, int_max. integral_cases T.
  all: match goal with
       | |- context [ ?y mod ?m ] =>
           pose proof (Z.mod_pos_bound y m eq_refl)
       end; lia.
Qed.

Lemma static_cast_congruent (T : integral) (x : Z) :
  static_cast T x mod 2 ^ bit_width T = x mod 2 ^ bit_width T.
Proof.
  unfold static_cast. set (m := 2 ^ bit_width T).
  assert (Hm : 0 < m) by (subst m; destruct T; reflexivity).
  assert (Hh : m = 2 * (m / 2)) by (subst m; destruct T; reflexivity).
  destruct (is_signed T).
  - rewrite Zminus_mod, Zmod_mod, <- Zminus_mod. f_equal. lia.
  - apply Zmod_mod.
Qed.

Lemma static_cast_id (T : integral) (x : Z) : in_range T x -> static_cast T x = x.
Proof.
  unfold in_range, static_cast, int_min, int_max. integral_cases T; intros H.
  all: rewrite Z.mod_small by lia; lia.
Qed.

Lemma static_cast_via_long (T : integral) (x : Z) :
  in_range T x -> static_cast T (static_cast Long x) = x.
Proof.
  intros H. destruct (decide (T = ULong)) as [-> | Hne].
  - unfold static_cast at 1. simpl is_signed. cbv iota zeta.
    change (bit_width ULong) with (bit_width Long).
    rewrite static_cast_congruent. simpl bit_width.
    apply (static_cast_id ULong x H).
  - rewrite (static_cast_id Long).
    + by apply static_cast_id.
    + revert H. unfold in_range, int_min, int_max.
      destruct T; try done; simpl; lia.
Qed.

(** C4.  A scalar decode of an object whose runtime type does not match
    the requested native type returns false and leaves the output
    variable as it was.  For an integral target the test is
    [PyInt_Check]; the decoders of the other scalars are modelled from
    the spec. *)
Theorem convert_scalar_mismatch (s : scalar) (obj : PyObject)
    (val : nval (scalar_type s)) :
  tag_matches s obj = false ->
  convert (scalar_type s) obj val = (false, val).
Proof.
  destruct s; simpl in *; intros Hcheck.
  - by destruct obj.
  - unfold convert_integral. by rewrite Hcheck.
  - by destruct obj.
  - by destruct obj.
  - by destruct obj.
Qed.

Lemma convert_scalar_mismatch_witness :
  tag_matches (SInt Int) (PyString "abc") = false /\
  convert (TInt Int) (PyString "abc") 7 = (false, 7).
Proof.
  split; [reflexivity |].
  apply (convert_scalar_mismatch (SInt Int) (PyString "abc") 7). reflexivity.
Defined.

(** C10.  Decoding into an integral type [T] accepts every object that
    passes [PyInt_Check], whatever its magnitude: the result is true and
    the value stored is the [long] the object holds converted to [T],
    that is, the value of [T] congruent to it modulo
    [2 ^ bit_width T]. *)
Theorem convert_integral_narrows (T : integral) (obj : PyObject) (val : Z) :
  PyInt_Check obj = true ->
  exists stored,
    convert (TInt T) obj val = (true, stored) /\
    in_range T stored /\
    stored mod 2 ^ bit_width T = PyInt_AsLong obj mod 2 ^ bit_width T.
Proof.
  intros Hcheck. exists (static_cast T (PyInt_AsLong obj)). split; [| split].
  - simpl. unfold convert_integral. by rewrite Hcheck.
  - apply static_cast_range.
  - apply static_cast_congruent.
Qed.

Lemma convert_integral_narrows_witness :
  PyInt_Check (PyInt 70000) = true /\
  exists stored,
    convert (TInt Short) (PyInt 70000) 0 = (true, stored) /\
    in_range Short stored /\
    stored mod 2 ^ bit_width Short = PyInt_AsLong (PyInt 70000) mod 2 ^ bit_width Short.
Proof.
  split; [reflexivity |].
  apply (convert_integral_narrows Short (PyInt 70000) 0). reflexivity.
Defined.

(** ** Tuples *)

(** C5.  Decoding into a native tuple of arity [N] an object that is not
    a tuple, or a tuple whose size is not [N], returns false (and leaves
    the native tuple as it was). *)
Theorem convert_tuple_shape (ts : tuple_types) (obj : PyObject) (tup : tval ts) :
  PyTuple_Check obj = false \/ PyTuple_Size obj <> Z.of_nat (arity ts) ->
  convert (TTuple ts) obj tup = (false, tup).
Proof.
  intros [Hcheck | Hsize]; simpl.
  - by rewrite Hcheck.
  - apply Z.eqb_neq in Hsize. rewrite Hsize. by rewrite orb_true_r.
Qed.

Lemma convert_tuple_shape_witness :
  (PyTuple_Check (PyTuple [Some (PyInt 1); Some (PyInt 2); Some (PyInt 3)]) = false \/
   PyTuple_Size (PyTuple [Some (PyInt 1); Some (PyInt 2); Some (PyInt 3)])
     <> Z.of_nat (arity (TSnoc (TOne (TInt Int)) (TInt Int)))) /\
  convert (TTuple (TSnoc (TOne (TInt Int)) (TInt Int)))
    (PyTuple [Some (PyInt 1); Some (PyInt 2); Some (PyInt 3)]) (0, 0)
  = (false, (0, 0)).
Proof.
  assert (H : PyTuple_Check (PyTuple [Some (PyInt 1); Some (PyInt 2); Some (PyInt 3)]) = false \/
              PyTuple_Size (PyTuple [Some (PyInt 1); Some (PyInt 2); Some (PyInt 3)])
                <> Z.of_nat (arity (TSnoc (TOne (TInt Int)) (TInt Int)))).
  { right. simpl. lia. }
  split; [exact H |].
  exact (convert_tuple_shape (TSnoc (TOne (TInt Int)) (TInt Int))
           (PyTuple [Some (PyInt 1); Some (PyInt 2); Some (PyInt 3)]) (0, 0) H).
Defined.

(** The result of [add_to_tuple<n>] for [n != 0] is the result of
    converting the last element: the results for the elements before it
    are dropped. *)
Lemma add_to_tuple_last (ts : tuple_types) (t : ntype) (obj item : PyObject)
    (tup : tval (TSnoc ts t)) :
  PyTuple_GetItem obj (arity ts) = Some item ->
  (add_to_tuple (TSnoc ts t) obj tup).1 = (convert t item tup.2).1.
Proof.
  intros Hitem. simpl. destruct (add_to_tuple ts obj tup.1) as [b front].
  rewrite Hitem. by destruct (convert t item tup.2).
Qed.

(** C2 (the code departs from the claim).  A 2-tuple whose first element
    is a string decodes into a native pair of integers with result true:
    the failure of element 0 is not reported, and element 1 is stored. *)
Theorem convert_tuple_ignores_early_failure :
  convert (TInt Int) (PyString "a") 0 = (false, 0) /\
  convert (TTuple (TSnoc (TOne (TInt Int)) (TInt Int)))
    (PyTuple [Some (PyString "a"); Some (PyInt 1)]) (0, 0)
  = (true, (0, 1)).
Proof. split; reflexivity. Qed.

(** ** Sequences *)

Lemma convert_items_all {T} (conv : PyObject -> T -> bool * T) (fresh : T)
    (items : list PyObject) (vals container : list T) :
  decodes conv fresh items vals ->
  convert_items conv fresh (Some <$> items) container = (true, container ++ vals).
Proof.
  intros H. revert container.
  induction H as [| item val items vals Hitem _ IH]; intros container; simpl.
  - by rewrite app_nil_r.
  - rewrite Hitem. simpl. rewrite IH. by rewrite <- app_assoc.
Qed.

Lemma convert_items_stop {T} (conv : PyObject -> T -> bool * T) (fresh : T)
    (items : list PyObject) (vals container : list T) (bad : PyObject)
    (rest : list (option PyObject)) :
  decodes conv fresh items vals ->
  (conv bad fresh).1 = false ->
  convert_items conv fresh ((Some <$> items) ++ Some bad :: rest) container
  = (false, container ++ vals).
Proof.
  intros H Hbad. revert container.
  induction H as [| item val items vals Hitem _ IH]; intros container; simpl.
  - destruct (conv bad fresh) as [ok v]. simpl in Hbad. subst ok. simpl.
    by rewrite app_nil_r.
  - rewrite Hitem. simpl. rewrite IH. by rewrite <- app_assoc.
Qed.

(** C6.  Decoding a sequence into a [std::list] or a [std::vector]:
    an object that is not a list gives false; the elements are decoded
    in ascending index order, each pushed back when it decodes, so that
    a failing element leaves the container extended by the elements
    before it; and when every element decodes the result is true and the
    container is extended by exactly the decoded elements, in order. *)
Theorem convert_list_appends (as_list : bool) (t : ntype) (container : list (nval t)) :
  (forall obj, PyList_Check obj = false ->
     convert_sequence as_list t obj container = (false, container)) /\
  (forall items vals,
     decodes (convert t) (default_val t) items vals ->
     convert_sequence as_list t (PyList (Some <$> items)) container
     = (true, container ++ vals)) /\
  (forall items vals bad rest,
     decodes (convert t) (default_val t) items vals ->
     (convert t bad (default_val t)).1 = false ->
     convert_sequence as_list t (PyList ((Some <$> items) ++ Some bad :: rest)) container
     = (false, container ++ vals)).
Proof.
  split; [| split].
  - intros obj Hcheck. destruct as_list; simpl; by destruct obj.
  - intros items vals H. destruct as_list; simpl; by apply convert_items_all.
  - intros items vals bad rest H Hbad.
    destruct as_list; simpl; by apply convert_items_stop.
Qed.

Lemma convert_list_appends_witness :
  convert (TVector (TInt Int)) (PyList [Some (PyInt 1); Some (PyInt 2)]) [7]
  = (true, [7; 1; 2]).
Proof.
  apply (proj1 (proj2 (convert_list_appends false (TInt Int) [7]))
           [PyInt 1; PyInt 2] [1; 2]).
  repeat constructor.
Defined.

(** ** Maps *)


Lemma convert_entries_stop (k v : ntype) (entries rest : list (PyObject * PyObject))
    (py_key py_val : PyObject) (ents mp : list (nval k * nval v)) :
  Forall2 (decodes_entry k v) entries ents ->
  (convert k py_key (default_val k)).1 = false \/
  (convert v py_val (default_val v)).1 = false ->
  convert_entries (convert k) (default_val k) (convert v) (default_val v) (less k)
    (entries ++ (py_key, py_val) :: rest) mp
  = (false, insert_all (less k) ents mp).
Proof.
  intros H Hbad. revert mp.
  induction H as [| [pk pv] [key val] entries ents [Hk Hv] _ IH]; intros mp; simpl.
  - destruct (convert k py_key (default_val k)) as [okk key].
    destruct okk; simpl; [| done].
    destruct (convert v py_val (default_val v)) as [okv val].
    destruct okv; simpl; [| done].
    simpl in Hbad. by destruct Hbad.
  - simpl in Hk, Hv. rewrite Hk. simpl. rewrite Hv. simpl. apply IH.
Qed.

Lemma map_insert_keeps {K V} (lt : K -> K -> bool) (key : K) (val : V)
    (mp : list (K * V)) (e : K * V) :
  e ∈ mp -> e ∈ map_insert lt key val mp.
Proof.
  induction mp as [| [k0 v0] mp IH]; simpl; intros He.
  - by apply elem_of_nil in He.
  - destruct (lt key k0); [by apply list_elem_of_further |].
    destruct (lt k0 key); [| done].
    apply elem_of_cons in He as [-> | He].
    + apply list_elem_of_here.
    + apply list_elem_of_further. by apply IH.
Qed.

Lemma insert_all_keeps {K V} (lt : K -> K -> bool) (ents mp : list (K * V))
    (e : K * V) :
  e ∈ mp -> e ∈ insert_all lt ents mp.
Proof.
  revert mp. induction ents as [| [k0 v0] ents IH]; intros mp He; simpl.
  - done.
  - apply IH. by apply map_insert_keeps.
Qed.

(** C7.  Decoding a mapping into a [std::map]: an object that is not a
    dictionary gives false.  The entries are visited in the order of the
    dictionary; when the key or the value of an entry fails to decode,
    the conversion stops there with false, and the map holds what it
    held before together with the entries inserted up to that point. *)
Theorem convert_map_aborts (k v : ntype) (mp : list (nval k * nval v)) :
  (forall obj, PyDict_Check obj = false ->
     convert (TMap k v) obj mp = (false, mp)) /\
  (forall entries ents py_key py_val rest,
     Forall2 (decodes_entry k v) entries ents ->
     (convert k py_key (default_val k)).1 = false \/
     (convert v py_val (default_val v)).1 = false ->
     convert (TMap k v) (PyDict (entries ++ (py_key, py_val) :: rest)) mp
     = (false, insert_all (less k) ents mp) /\
     forall e, e ∈ mp -> e ∈ insert_all (less k) ents mp).
Proof.
  split.
  - intros obj Hcheck. simpl. by destruct obj.
  - intros entries ents py_key py_val rest H Hbad. split.
    + simpl. by apply convert_entries_stop.
    + intros e. apply insert_all_keeps.
Qed.

Lemma convert_map_aborts_witness :
  convert (TMap (TInt Int) TString)
    (PyDict [(PyInt 2, PyString "b"); (PyInt 1, PyNone); (PyInt 3, PyString "c")])
    [(5, "e"%string)]
  = (false, [(2, "b"%string); (5, "e"%string)]).
Proof.
  apply (proj2 (convert_map_aborts (TInt Int) TString [(5, "e"%string)])
           [(PyInt 2, PyString "b")] [(2, "b"%string)] (PyInt 1) PyNone
           [(PyInt 3, PyString "c")]).
  - repeat constructor.
  - right. reflexivity.
Defined.

(** ** Calling into the runtime *)

Section CallProperties.

Variable dict_order : list (PyObject * PyObject) -> list (PyObject * PyObject).
Variable load_function : Object -> string -> exception + PyObject.
Variable PyObject_CallObject : PyObject -> PyObject -> option PyObject.

Lemma add_tuple_var_in_range (filled : list (option PyObject)) (n : nat)
    (a : argument) :
  add_tuple_var dict_order (PyTuple (filled ++ replicate (S n) None))
    (PyTuple_Size (PyTuple (filled ++ replicate (S n) None)) - Z.of_nat n - 1) a
  = PyTuple ((filled ++ [Some (argument_object dict_order a)]) ++ replicate n None).
Proof.
  assert (Hset : forall item,
    PyTuple_SetItem (PyTuple (filled ++ replicate (S n) None))
      (PyTuple_Size (PyTuple (filled ++ replicate (S n) None)) - Z.of_nat n - 1) item
    = PyTuple ((filled ++ [Some item]) ++ replicate n None)).
  { intros item. unfold PyTuple_SetItem, PyTuple_Size.
    rewrite length_app, length_replicate.
    replace (Z.of_nat (length filled + S n) - Z.of_nat n - 1)
      with (Z.of_nat (length filled)) by lia.
    rewrite Nat2Z.id.
    assert (Hin : (0 <=? Z.of_nat (length filled)) &&
                  (Z.of_nat (length filled) <? Z.of_nat (length filled + S n)) = true)
      by (apply andb_true_iff; split; [apply Z.leb_le | apply Z.ltb_lt]; lia).
    rewrite Hin.
    f_equal. rewrite <- (Nat.add_0_r (length filled)) at 1.
    rewrite insert_app_r. simpl. by rewrite <- app_assoc. }
  destruct a; simpl; apply Hset.
Qed.

Lemma add_tuple_vars_fills (tail : list argument) :
  forall (filled : list (option PyObject)) (head : argument),
    add_tuple_vars dict_order
      (PyTuple (filled ++ replicate (S (length tail)) None)) head tail
    = PyTuple (filled ++ (Some <$> (argument_object dict_order <$> head :: tail))).
Proof.
  induction tail as [| next rest IH]; intros filled head.
  - simpl add_tuple_vars.
    pose proof (add_tuple_var_in_range filled 0 head) as H.
    rewrite Z.sub_0_r in H. simpl in H. rewrite H. by rewrite app_nil_r.
  - cbn [add_tuple_vars].
    rewrite (add_tuple_var_in_range filled (length (next :: rest)) head).
    cbn [length]. rewrite IH. by rewrite <- app_assoc.
Qed.

Lemma call_tuple_items (args : list argument) :
  call_tuple dict_order args = PyTuple (Some <$> (argument_object dict_order <$> args)).
Proof.
  destruct args as [| head tail]; [done |].
  unfold call_tuple. cbn [length].
  apply (add_tuple_vars_fills tail [] head).
Qed.



End CallProperties.



(** ** Reference counts *)

(** The sequence allocator leaves every object with exactly the
    references that are held: releasing the one reference the caller got
    frees the whole structure and gives the shared small integers their
    counts back. *)
Lemma alloc_list_released :
  exists lst h h',
    Refcount.alloc_pyobject (Refcount.HVector (Refcount.HVector (Refcount.HInt Int)))
      [[1; 2000]; [3]]
      Refcount.initial_heap = Some (lst, h) /\
    Refcount.ob_refcnt <$> Refcount.objects h !! lst = Some 1 /\
    Refcount.Py_DECREF lst h = Some (tt, h') /\
    Refcount.objects h' = Refcount.objects Refcount.initial_heap.
Proof.
  eexists _, _, _. split; [vm_compute; reflexivity |].
  split; [vm_compute; reflexivity |].
  split; [vm_compute; reflexivity |].
  vm_compute. reflexivity.
Qed.

(** C8 (the code departs from the claim).  Encoding the map [{1: 2}] on
    the store of a runtime that has just started: the dictionary (address
    262) is returned with one reference, but the key and the value, the
    shared integers [1] and [2] (addresses 6 and 7, count 1 at the
    start), each count three references while the small-integer table
    and the dictionary are their only holders.  After the caller
    releases the dictionary both still count two: one reference each is
    left that nothing holds.  Encoding [{1000: 2000}], whose key and
    value are new objects (addresses 263 and 264): each counts two
    references with the dictionary as only holder, and after the caller
    releases the dictionary both are still allocated, with a count of
    one and nothing that refers to them. *)
Theorem alloc_map_leaks_references :
  (exists dict h h',
    Refcount.alloc_pyobject (Refcount.HMap (Refcount.HInt Int) (Refcount.HInt Int)) [(1, 2)]
      Refcount.initial_heap = Some (dict, h) /\
    Refcount.objects h !! dict
      = Some {| Refcount.ob_refcnt := 1;
                Refcount.ob_shape := Refcount.DictOf [(6%nat, 7%nat)] |} /\
    Refcount.objects Refcount.initial_heap !! 6%nat
      = Some {| Refcount.ob_refcnt := 1;
                Refcount.ob_shape := Refcount.Scalar (PyInt 1) |} /\
    Refcount.objects Refcount.initial_heap !! 7%nat
      = Some {| Refcount.ob_refcnt := 1;
                Refcount.ob_shape := Refcount.Scalar (PyInt 2) |} /\
    Refcount.objects h !! 6%nat
      = Some {| Refcount.ob_refcnt := 3;
                Refcount.ob_shape := Refcount.Scalar (PyInt 1) |} /\
    Refcount.objects h !! 7%nat
      = Some {| Refcount.ob_refcnt := 3;
                Refcount.ob_shape := Refcount.Scalar (PyInt 2) |} /\
    Refcount.held_refs h 6%nat = 1%nat /\
    Refcount.held_refs h 7%nat = 1%nat /\
    Refcount.Py_DECREF dict h = Some (tt, h') /\
    Refcount.objects h' !! 6%nat
      = Some {| Refcount.ob_refcnt := 2;
                Refcount.ob_shape := Refcount.Scalar (PyInt 1) |} /\
    Refcount.objects h' !! 7%nat
      = Some {| Refcount.ob_refcnt := 2;
                Refcount.ob_shape := Refcount.Scalar (PyInt 2) |} /\
    Refcount.held_refs h' 6%nat = 0%nat /\
    Refcount.held_refs h' 7%nat = 0%nat) /\
  (exists dict h h',
    Refcount.alloc_pyobject (Refcount.HMap (Refcount.HInt Int) (Refcount.HInt Int))
      [(1000, 2000)]
      Refcount.initial_heap = Some (dict, h) /\
    Refcount.objects h !! dict
      = Some {| Refcount.ob_refcnt := 1;
                Refcount.ob_shape := Refcount.DictOf [(263%nat, 264%nat)] |} /\
    Refcount.objects h !! 263%nat
      = Some {| Refcount.ob_refcnt := 2;
                Refcount.ob_shape := Refcount.Scalar (PyInt 1000) |} /\
    Refcount.objects h !! 264%nat
      = Some {| Refcount.ob_refcnt := 2;
                Refcount.ob_shape := Refcount.Scalar (PyInt 2000) |} /\
    Refcount.held_refs h 263%nat = 1%nat /\
    Refcount.held_refs h 264%nat = 1%nat /\
    Refcount.Py_DECREF dict h = Some (tt, h') /\
    Refcount.objects h' !! 263%nat
      = Some {| Refcount.ob_refcnt := 1;
                Refcount.ob_shape := Refcount.Scalar (PyInt 1000) |} /\
    Refcount.objects h' !! 264%nat
      = Some {| Refcount.ob_refcnt := 1;
                Refcount.ob_shape := Refcount.Scalar (PyInt 2000) |} /\
    Refcount.held_refs h' 263%nat = 0%nat /\
    Refcount.held_refs h' 264%nat = 0%nat).
Proof.
  split.
  - eexists _, _, _.
    split; [vm_compute; reflexivity |].
    repeat split; vm_compute; reflexivity.
  - eexists _, _, _.
    split; [vm_compute; reflexivity |].
    repeat split; vm_compute; reflexivity.
Qed.

(** ** Strict total orders and std::map *)


Lemma strict_total_image {A} (f : A -> Z) :
  Inj (=) (=) f -> strict_total (fun x y => f x <? f y).
Proof.
  intros Hinj. split.
  - intros a. apply Z.ltb_irrefl.
  - intros a b c Hab Hbc. apply Z.ltb_lt. apply Z.ltb_lt in Hab, Hbc. lia.
  - intros a b Hab Hba. apply Hinj. apply Z.ltb_ge in Hab, Hba. lia.
Qed.

Section Lexicographic.

Context {A : Type} (lt : A -> A -> bool) (Hlt : strict_total lt).

Lemma lexicographical_compare_irrefl (l : list A) :
  lexicographical_compare lt l l = false.
Proof using Hlt.
  induction l as [| a l IH]; simpl; [done |].
  by rewrite (lt_irrefl lt Hlt a).
Qed.

Lemma lexicographical_compare_trans (l1 l2 l3 : list A) :
  lexicographical_compare lt l1 l2 = true ->
  lexicographical_compare lt l2 l3 = true ->
  lexicographical_compare lt l1 l3 = true.
Proof using Hlt.
  revert l2 l3. induction l1 as [| a l1 IH]; intros [| b l2] [| c l3]; simpl; try done.
  destruct (lt a b) eqn:Hab.
  - intros _. destruct (lt b c) eqn:Hbc.
    + intros _. by rewrite (lt_trans lt Hlt a b c).
    + destruct (lt c b) eqn:Hcb; [done |].
      rewrite (lt_total lt Hlt b c Hbc Hcb) in Hab. by rewrite Hab.
  - destruct (lt b a) eqn:Hba; [done |].
    rewrite (lt_total lt Hlt a b Hab Hba).
    destruct (lt b c); [done |]. destruct (lt c b); [done |]. apply IH.
Qed.

Lemma lexicographical_compare_total (l1 l2 : list A) :
  lexicographical_compare lt l1 l2 = false ->
  lexicographical_compare lt l2 l1 = false ->
  l1 = l2.
Proof using Hlt.
  revert l2. induction l1 as [| a l1 IH]; intros [| b l2]; simpl; try done.
  destruct (lt a b) eqn:Hab; [done |]. destruct (lt b a) eqn:Hba; [done |].
  intros H1 H2. rewrite (lt_total lt Hlt a b Hab Hba). f_equal. by apply IH.
Qed.

Lemma lexicographical_compare_strict_total :
  strict_total (lexicographical_compare lt).
Proof using Hlt.
  split.
  - apply lexicographical_compare_irrefl.
  - apply lexicographical_compare_trans.
  - apply lexicographical_compare_total.
Qed.

End Lexicographic.

Lemma uchar_of_range (c : ascii) : 0 <= uchar_of c < 256.
Proof.
  unfold uchar_of. pose proof (N_ascii_bounded c). lia.
Qed.

Lemma uchar_of_inj : Inj (=) (=) uchar_of.
Proof.
  intros a b H. unfold uchar_of in H.
  rewrite <- (ascii_N_embedding a), <- (ascii_N_embedding b). f_equal. lia.
Qed.

Lemma char_of_inj : Inj (=) (=) char_of.
Proof.
  intros a b H. apply uchar_of_inj. unfold char_of in H.
  pose proof (static_cast_congruent SChar (uchar_of a)) as Ha.
  pose proof (static_cast_congruent SChar (uchar_of b)) as Hb.
  rewrite H, Hb in Ha. simpl bit_width in Ha.
  pose proof (uchar_of_range a). pose proof (uchar_of_range b).
  change (2 ^ 8) with 256 in Ha.
  rewrite !Z.mod_small in Ha by lia. done.
Qed.

Section StdMap.

Context {K V : Type} (lt : K -> K -> bool) (Hlt : strict_total lt).

Lemma elem_of_map_insert (key : K) (val : V) (mp : list (K * V)) (e : K * V) :
  e ∈ map_insert lt key val mp -> e = (key, val) \/ e ∈ mp.
Proof.
  induction mp as [| [k0 v0] mp IH]; simpl.
  - intros He. left. by apply list_elem_of_singleton in He.
  - destruct (lt key k0).
    + intros He. apply elem_of_cons in He as [-> | He]; [by left | by right].
    + destruct (lt k0 key); [| by right].
      intros He. apply elem_of_cons in He as [-> | He].
      * right. apply list_elem_of_here.
      * destruct (IH He) as [-> | Hin]; [by left |].
        right. by apply list_elem_of_further.
Qed.

Lemma map_insert_sorted (key : K) (val : V) (mp : list (K * V)) :
  key_sorted lt mp -> key_sorted lt (map_insert lt key val mp).
Proof using Hlt.
  unfold key_sorted. induction mp as [| [k0 v0] mp IH]; simpl; intros Hs.
  - repeat constructor.
  - apply StronglySorted_cons in Hs as [Hhd Hs].
    destruct (lt key k0) eqn:Hlow.
    + apply StronglySorted_cons. split.
      * constructor; [done |].
        eapply Forall_impl; [exact Hhd |]. intros [k1 v1] H1. simpl in *.
        by apply (lt_trans lt Hlt key k0 k1).
      * apply StronglySorted_cons. by split.
    + destruct (lt k0 key) eqn:Hhigh.
      * apply StronglySorted_cons. split; [| by apply IH].
        apply Forall_forall. intros e He.
        apply elem_of_map_insert in He as [-> | He]; [done |].
        rewrite Forall_forall in Hhd. by apply Hhd.
      * apply StronglySorted_cons. by split.
Qed.




Lemma key_sorted_NoDup (mp : list (K * V)) : key_sorted lt mp -> NoDup mp.*1.
Proof using Hlt.
  unfold key_sorted. induction mp as [| [k0 v0] mp IH]; simpl; intros Hs.
  - constructor.
  - apply StronglySorted_cons in Hs as [Hhd Hs]. constructor; [| by apply IH].
    intros Hin. apply list_elem_of_fmap in Hin as ([k1 v1] & Hk & Hin).
    simpl in Hk. subst k1. rewrite Forall_forall in Hhd.
    specialize (Hhd _ Hin). simpl in Hhd.
    by rewrite (lt_irrefl lt Hlt k0) in Hhd.
Qed.


End StdMap.

(** ** Round trip *)

Lemma less_strict_total (k : etype) :
  key_type k = true -> strict_total (less (ntype_of k)).
Proof.
  destruct k; try done; intros _; simpl.
  - split.
    + by intros [].
    + by intros [] [] [].
    + by intros [] [].
  - apply (strict_total_image id). by intros a b.
  - pose proof (lexicographical_compare_strict_total _
                  (strict_total_image uchar_of uchar_of_inj)) as Hlex.
    split.
    + intros a. apply (lt_irrefl _ Hlex).
    + intros a b c. apply (lt_trans _ Hlex).
    + intros a b Hab Hba. pose proof (lt_total _ Hlex _ _ Hab Hba) as Heq.
      by rewrite <- (string_of_list_ascii_of_string a), Heq,
                 string_of_list_ascii_of_string.
  - apply lexicographical_compare_strict_total.
    apply (strict_total_image char_of char_of_inj).
Qed.

Lemma alloc_list_items_fills {T} (alloc : T -> PyObject) (rest : list T) :
  forall filled : list (option PyObject),
    alloc_list_items alloc rest (length filled)
      (PyList (filled ++ replicate (length rest) None))
    = PyList (filled ++ (Some <$> (alloc <$> rest))).
Proof.
  induction rest as [| x rest IH]; intros filled; simpl; [done |].
  rewrite <- (Nat.add_0_r (length filled)) at 2.
  rewrite insert_app_r. simpl.
  replace (S (length filled)) with (length (filled ++ [Some (alloc x)]))
    by (rewrite length_app; simpl; lia).
  rewrite (cons_middle (Some (alloc x)) filled (replicate _ _)), app_assoc.
  rewrite IH. by rewrite <- app_assoc.
Qed.

Lemma alloc_list_objects {T} (alloc : T -> PyObject) (container : list T) :
  alloc_list alloc container = PyList (Some <$> (alloc <$> container)).
Proof. apply (alloc_list_items_fills alloc container []). Qed.

Section RoundTrip.

Variable dict_order : list (PyObject * PyObject) -> list (PyObject * PyObject).

(** The table of a dictionary holds the entries that went in, in some
    order. *)
Hypothesis dict_order_permutes : forall table, dict_order table ≡ₚ table.

Lemma alloc_key_hashable (k : etype) (key : nval (ntype_of k)) :
  key_type k = true -> py_hashable (alloc_pyobject dict_order k key) = true.
Proof using Type. by destruct k. Qed.

Lemma alloc_key_distinct (k : etype) (a b : nval (ntype_of k)) :
  key_type k = true -> well_formed k a -> well_formed k b -> a <> b ->
  py_eq (alloc_pyobject dict_order k a) (alloc_pyobject dict_order k b) = false.
Proof using Type.
  destruct k; try done; simpl; intros _ Ha Hb Hne.
  - by destruct a, b.
  - apply Z.eqb_neq. intros Heq. apply Hne.
    by rewrite <- (static_cast_via_long T a Ha), Heq, static_cast_via_long.
  - by apply String.eqb_neq.
  - apply String.eqb_neq. intros Heq. apply Hne.
    by rewrite <- (list_ascii_of_string_of_list_ascii a), Heq,
               list_ascii_of_string_of_list_ascii.
Qed.

Lemma dict_update_absent (key val : PyObject) (table : list (PyObject * PyObject)) :
  Forall (fun entry => py_eq entry.1 key = false) table ->
  dict_update key val table = None.
Proof using Type.
  induction 1 as [| [k0 v0] table Hne _ IH]; simpl; [done |].
  simpl in Hne. by rewrite Hne, IH.
Qed.

Lemma encoded_table_key (k v : etype) (table : list (PyObject * PyObject))
    (ents : list (nval (ntype_of k) * nval (ntype_of v))) (entry : PyObject * PyObject) :
  Forall2 (encodes_entry dict_order k v) table ents -> entry ∈ table ->
  exists e, e ∈ ents /\ entry.1 = alloc_pyobject dict_order k e.1.
Proof using Type.
  induction 1 as [| entry0 e0 table ents Hrel _ IH]; intros Hin.
  - by apply elem_of_nil in Hin.
  - apply elem_of_cons in Hin as [-> | Hin].
    + exists e0. split; [apply list_elem_of_here | by rewrite Hrel].
    + destruct (IH Hin) as (e & He & Heq).
      exists e. split; [by apply list_elem_of_further | done].
Qed.

Lemma alloc_map_entries_table (k v : etype) :
  key_type k = true ->
  forall (container ents : list (nval (ntype_of k) * nval (ntype_of v)))
         (table : list (PyObject * PyObject)),
    Forall2 (encodes_entry dict_order k v) table ents ->
    NoDup ((ents ++ container).*1) ->
    Forall (fun e => well_formed k e.1) (ents ++ container) ->
    exists table' ents',
      alloc_map_entries dict_order (alloc_pyobject dict_order k)
        (alloc_pyobject dict_order v) container (PyDict table) = PyDict table' /\
      Forall2 (encodes_entry dict_order k v) table' ents' /\
      ents' ≡ₚ ents ++ container.
Proof using dict_order_permutes.
  intros Hk. induction container as [| [key val] rest IH]; intros ents table Henc Hnd Hwf.
  - exists table, ents. by rewrite app_nil_r.
  - cbn [alloc_map_entries]. unfold PyDict_SetItem.
    rewrite (alloc_key_hashable k key Hk). cbn [negb].
    assert (Hkey : well_formed k key).
    { rewrite Forall_app, Forall_cons in Hwf. by destruct Hwf as (_ & ? & _). }
    assert (Hnew : key ∉ ents.*1).
    { rewrite fmap_app in Hnd. apply NoDup_app in Hnd as (_ & Hdisj & _).
      intros Hin. apply (Hdisj key Hin). simpl. apply list_elem_of_here. }
    rewrite dict_update_absent; last first.
    { apply Forall_forall. intros entry Hentry.
      destruct (encoded_table_key k v table ents entry Henc Hentry) as (e & He & ->).
      apply (alloc_key_distinct k e.1 key Hk); [| done |].
      - rewrite Forall_app, Forall_forall in Hwf. by apply Hwf.
      - intros Heq. apply Hnew. rewrite <- Heq. by apply list_elem_of_fmap_2. }
    assert (Henc' : Forall2 (encodes_entry dict_order k v)
                      (table ++ [(alloc_pyobject dict_order k key,
                                  alloc_pyobject dict_order v val)])
                      (ents ++ [(key, val)])).
    { apply Forall2_app; [done |]. by repeat constructor. }
    destruct (Permutation_Forall2 (symmetry (dict_order_permutes _)) Henc')
      as (ents1 & Hperm1 & Henc1).
    destruct (IH ents1 _ Henc1) as (table' & ents' & Hrun & Hrel & Hperm).
    + rewrite <- Hperm1, <- app_assoc. done.
    + rewrite <- Hperm1, <- app_assoc. done.
    + exists table', ents'. split; [done |]. split; [done |].
      rewrite Hperm, <- Hperm1, <- app_assoc. done.
Qed.



End RoundTrip.



(** * Further properties of the converters *)

(** ** Sequences *)

Lemma convert_items_from_empty {T} (conv : PyObject -> T -> bool * T) (fresh : T)
    (items : list (option PyObject)) :
  forall container : list T,
    convert_items conv fresh items container
    = ((convert_items conv fresh items []).1,
       container ++ (convert_items conv fresh items []).2).
Proof.
  induction items as [| [item |] rest IH]; intros container; simpl.
  - by rewrite app_nil_r.
  - destruct (conv item fresh) as [ok val]. destruct ok; simpl.
    + rewrite (IH (container ++ [val])), (IH [val]). simpl.
      by rewrite <- app_assoc.
    + by rewrite app_nil_r.
  - by rewrite app_nil_r.
Qed.

Lemma convert_items_length {T} (conv : PyObject -> T -> bool * T) (fresh : T)
    (items : list (option PyObject)) :
  forall container : list T,
    (convert_items conv fresh items container).1 = true ->
    length (convert_items conv fresh items container).2
    = (length container + length items)%nat.
Proof.
  induction items as [| [item |] rest IH]; intros container; simpl.
  - intros _. lia.
  - destruct (conv item fresh) as [ok val]. destruct ok; simpl; [| done].
    intros Hok. rewrite (IH _ Hok), length_app. simpl. lia.
  - done.
Qed.

Lemma convert_items_app {T} (conv : PyObject -> T -> bool * T) (fresh : T)
    (xs ys : list (option PyObject)) :
  forall container : list T,
    convert_items conv fresh (xs ++ ys) container
    = if (convert_items conv fresh xs container).1
      then convert_items conv fresh ys (convert_items conv fresh xs container).2
      else convert_items conv fresh xs container.
Proof.
  induction xs as [| [item |] rest IH]; intros container; simpl.
  - done.
  - destruct (conv item fresh) as [ok val]. destruct ok; simpl; [apply IH | done].
  - done.
Qed.

(** X1.  Decoding a sequence never touches the elements the output
    container already holds: the result flag is the one decoding into an
    empty container gives, and the container ends as its prior content
    followed by what decoding into an empty container yields. *)
Theorem convert_sequence_keeps_prefix (as_list : bool) (t : ntype)
    (obj : PyObject) (container : list (nval t)) :
  convert_sequence as_list t obj container
  = ((convert_sequence as_list t obj []).1,
     container ++ (convert_sequence as_list t obj []).2).
Proof.
  destruct as_list; simpl; unfold convert_list; destruct obj;
    try (by rewrite app_nil_r); apply convert_items_from_empty.
Qed.

(** X2.  A sequence decode that returns true has appended one element
    per item of the list: the container grew by exactly [PyList_Size]. *)
Theorem convert_sequence_grows_by_size (as_list : bool) (t : ntype)
    (obj : PyObject) (container : list (nval t)) :
  (convert_sequence as_list t obj container).1 = true ->
  Z.of_nat (length (convert_sequence as_list t obj container).2)
  = Z.of_nat (length container) + PyList_Size obj.
Proof.
  destruct as_list; simpl; unfold convert_list; destruct obj; try done;
    intros Hok; rewrite (convert_items_length _ _ _ _ Hok); simpl; lia.
Qed.

Lemma convert_sequence_grows_by_size_witness :
  (convert_sequence false (TInt Int) (PyList [Some (PyInt 4); Some (PyInt 5)]) [9]).1
  = true /\
  Z.of_nat (length (convert_sequence false (TInt Int)
                      (PyList [Some (PyInt 4); Some (PyInt 5)]) [9]).2)
  = Z.of_nat (length [9]) + PyList_Size (PyList [Some (PyInt 4); Some (PyInt 5)]).
Proof.
  split; [reflexivity |].
  apply (convert_sequence_grows_by_size false (TInt Int)
           (PyList [Some (PyInt 4); Some (PyInt 5)]) [9]).
  reflexivity.
Defined.

(** X3.  Decoding the concatenation of two lists is decoding the first
    and, when that succeeds, decoding the second into the container the
    first left; when the first fails the second is not looked at. *)
Theorem convert_sequence_concat (as_list : bool) (t : ntype)
    (xs ys : list (option PyObject)) (container : list (nval t)) :
  convert_sequence as_list t (PyList (xs ++ ys)) container
  = if (convert_sequence as_list t (PyList xs) container).1
    then convert_sequence as_list t (PyList ys)
           (convert_sequence as_list t (PyList xs) container).2
    else convert_sequence as_list t (PyList xs) container.
Proof. destruct as_list; simpl; apply convert_items_app. Qed.

(** ** Tuples *)

Lemma tuple_decodes_length (ts : tuple_types) :
  forall (items : list PyObject) (tup res : tval ts),
    tuple_decodes ts items tup res -> length items = arity ts.
Proof.
  induction ts as [t | ts IH t]; simpl; intros items tup res.
  - by intros (item & -> & _).
  - intros (front & item & -> & Hfront & _).
    rewrite length_app, (IH _ _ _ Hfront). simpl. lia.
Qed.

(** [add_to_tuple<n>] reads the items at indices [0 .. n] only. *)
Lemma add_to_tuple_reads_front (ts : tuple_types) :
  forall (obj obj' : PyObject) (tup : tval ts),
    (forall i, (i < arity ts)%nat -> PyTuple_GetItem obj i = PyTuple_GetItem obj' i) ->
    add_to_tuple ts obj tup = add_to_tuple ts obj' tup.
Proof.
  induction ts as [t | ts IH t]; intros obj obj' tup Hsame;
    cbn [add_to_tuple]; cbn [arity] in Hsame.
  - by rewrite (Hsame 0%nat) by lia.
  - rewrite (IH obj obj' tup.1) by (intros i Hi; apply Hsame; lia).
    by rewrite (Hsame (arity ts)) by lia.
Qed.

Lemma add_to_tuple_decodes (ts : tuple_types) :
  forall (items : list PyObject) (more : list (option PyObject)) (tup res : tval ts),
    tuple_decodes ts items tup res ->
    add_to_tuple ts (PyTuple ((Some <$> items) ++ more)) tup = (true, res).
Proof.
  induction ts as [t | ts IH t]; intros items more tup res;
    cbn [add_to_tuple tuple_decodes].
  - intros (item & -> & Hitem). simpl. by rewrite Hitem.
  - intros (front & item & -> & Hfront & Hitem).
    rewrite fmap_app, <- app_assoc. cbn [fmap list_fmap app].
    rewrite (IH front (Some item :: more) tup.1 res.1 Hfront).
    unfold PyTuple_GetItem.
    rewrite lookup_app_r; rewrite length_fmap, (tuple_decodes_length _ _ _ _ Hfront);
      [| lia].
    rewrite Nat.sub_diag. simpl. rewrite Hitem. by destruct res.
Qed.

(** X4.  When the object is a tuple with one item per element type and
    every item converts into its element, decoding the tuple returns
    true and the native tuple holds the converted elements, each at its
    position. *)
Theorem convert_tuple_elementwise (ts : tuple_types) (items : list PyObject)
    (tup res : tval ts) :
  tuple_decodes ts items tup res ->
  convert (TTuple ts) (PyTuple (Some <$> items)) tup = (true, res).
Proof.
  intros Hdec. simpl. rewrite length_fmap, (tuple_decodes_length _ _ _ _ Hdec).
  rewrite Z.eqb_refl. simpl.
  rewrite <- (app_nil_r (Some <$> items)). by apply add_to_tuple_decodes.
Qed.

Lemma convert_tuple_elementwise_witness :
  convert (TTuple (TSnoc (TSnoc (TOne (TInt Int)) TString) (TVector (TInt Int))))
    (PyTuple (Some <$> [PyInt 1; PyString "two"; PyList [Some (PyInt 3)]]))
    (0, ""%string, [8])
  = (true, (1, "two"%string, [8; 3])).
Proof.
  apply (convert_tuple_elementwise
           (TSnoc (TSnoc (TOne (TInt Int)) TString) (TVector (TInt Int)))
           [PyInt 1; PyString "two"; PyList [Some (PyInt 3)]]
           (0, ""%string, [8]) (1, "two"%string, [8; 3])).
  exists [PyInt 1; PyString "two"], (PyList [Some (PyInt 3)]).
  split; [reflexivity |]. split; [| reflexivity].
  exists [PyInt 1], (PyString "two").
  split; [reflexivity |]. split; [| reflexivity].
  exists (PyInt 1). split; reflexivity.
Defined.

(** X5.  Decoding a tuple of [n + 1] items into a native tuple of as
    many elements: the result flag is the flag of the last element
    alone, the last element is what its converter left, and the elements
    before it are what decoding the first [n] items into them leaves,
    whether or not that decode reported a failure. *)
Theorem convert_tuple_last_decides (ts : tuple_types) (t : ntype)
    (items : list (option PyObject)) (item : PyObject) (tup : tval (TSnoc ts t)) :
  length items = arity ts ->
  convert (TTuple (TSnoc ts t)) (PyTuple (items ++ [Some item])) tup
  = ((convert t item tup.2).1,
     ((convert (TTuple ts) (PyTuple items) tup.1).2, (convert t item tup.2).2)).
Proof.
  intros Hlen.
  change (convert (TTuple (TSnoc ts t)) (PyTuple (items ++ [Some item])) tup)
    with (if negb (PyTuple_Check (PyTuple (items ++ [Some item]))) ||
             negb (PyTuple_Size (PyTuple (items ++ [Some item]))
                   =? Z.of_nat (arity (TSnoc ts t)))
          then (false, tup)
          else add_to_tuple (TSnoc ts t) (PyTuple (items ++ [Some item])) tup).
  change (convert (TTuple ts) (PyTuple items) tup.1)
    with (if negb (PyTuple_Check (PyTuple items)) ||
             negb (PyTuple_Size (PyTuple items) =? Z.of_nat (arity ts))
          then (false, tup.1)
          else add_to_tuple ts (PyTuple items) tup.1).
  simpl PyTuple_Check. simpl PyTuple_Size.
  rewrite length_app, Hlen. simpl length.
  replace (arity ts + 1)%nat with (S (arity ts)) by lia.
  rewrite !Z.eqb_refl. simpl negb. simpl orb. cbv iota.
  cbn [add_to_tuple].
  rewrite (add_to_tuple_reads_front ts (PyTuple (items ++ [Some item])) (PyTuple items)).
  - destruct (add_to_tuple ts (PyTuple items) tup.1) as [flag front].
    unfold PyTuple_GetItem. rewrite lookup_app_r by lia.
    rewrite Hlen, Nat.sub_diag. simpl.
    by destruct (convert t item tup.2).
  - intros i Hi. unfold PyTuple_GetItem. by rewrite lookup_app_l by lia.
Qed.

Lemma convert_tuple_last_decides_witness :
  convert (TTuple (TSnoc (TSnoc (TOne (TInt Int)) (TInt Int)) TString))
    (PyTuple ([Some (PyInt 1); Some PyNone] ++ [Some (PyString "z")]))
    (7, 8, ""%string)
  = (true, (1, 8, "z"%string)).
Proof.
  apply (convert_tuple_last_decides (TSnoc (TOne (TInt Int)) (TInt Int)) TString
           [Some (PyInt 1); Some PyNone] (PyString "z") (7, 8, ""%string)).
  reflexivity.
Defined.

(** ** Maps *)


Lemma convert_entries_sorted {K V} (convk : PyObject -> K -> bool * K) (freshk : K)
    (convv : PyObject -> V -> bool * V) (freshv : V) (lt : K -> K -> bool)
    (entries : list (PyObject * PyObject)) :
  strict_total lt ->
  forall mp : list (K * V),
    key_sorted lt mp ->
    key_sorted lt (convert_entries convk freshk convv freshv lt entries mp).2.
Proof.
  intros Hlt. induction entries as [| [py_key py_val] rest IH]; intros mp Hs; simpl.
  - done.
  - destruct (convk py_key freshk) as [okk key]. destruct okk; simpl; [| done].
    destruct (convv py_val freshv) as [okv val]. destruct okv; simpl; [| done].
    apply IH. by apply map_insert_sorted.
Qed.



(** X6.  Decoding into a [std::map] keeps its entries in strictly
    ascending key order, whatever the object is and whether or not the
    decode succeeds, when [operator<] of the key type is a strict total
    order. *)
Theorem convert_map_keeps_order (k v : ntype) (obj : PyObject)
    (mp : list (nval k * nval v)) :
  strict_total (less k) ->
  key_sorted (less k) mp ->
  key_sorted (less k) (convert (TMap k v) obj mp).2.
Proof.
  intros Hlt Hs. simpl. unfold convert_map.
  destruct obj; try done. by apply convert_entries_sorted.
Qed.

Lemma convert_map_keeps_order_witness :
  key_sorted (less (TInt Int))
    (convert (TMap (TInt Int) TString)
       (PyDict [(PyInt 9, PyString "i"); (PyInt 3, PyString "c"); (PyInt 5, PyNone)])
       [(4, "d"%string)]).2.
Proof.
  apply (convert_map_keeps_order (TInt Int) TString
           (PyDict [(PyInt 9, PyString "i"); (PyInt 3, PyString "c"); (PyInt 5, PyNone)])
           [(4, "d"%string)]).
  - exact (less_strict_total (EInt Int) eq_refl).
  - repeat first [apply SSorted_nil | apply SSorted_cons
                 | apply Forall_nil_2 | apply Forall_cons_2].
Defined.





(** * Further properties of the allocators *)

Lemma static_cast_residue (T : integral) (a b : Z) :
  a mod 2 ^ bit_width T = b mod 2 ^ bit_width T ->
  static_cast T a = static_cast T b.
Proof.
  intros Hmod. unfold static_cast. cbv zeta.
  destruct (is_signed T); [| done].
  f_equal. by rewrite <- (Zplus_mod_idemp_l a), Hmod, Zplus_mod_idemp_l.
Qed.

Lemma static_cast_through_long (T : integral) (n : Z) :
  static_cast T (static_cast Long n) = static_cast T n.
Proof.
  apply static_cast_residue.
  assert (Hdiv : (2 ^ bit_width T | 2 ^ bit_width Long)).
  { destruct T; simpl.
    - by exists (2 ^ 56). - by exists (2 ^ 56).
    - by exists (2 ^ 48). - by exists (2 ^ 48).
    - by exists (2 ^ 32). - by exists (2 ^ 32).
    - by exists 1. - by exists 1. }
  rewrite <- (Z.mod_mod_divide (static_cast Long n) _ _ Hdiv),
          <- (Z.mod_mod_divide n _ _ Hdiv).
  by rewrite static_cast_congruent.
Qed.

Section AllocatorProperties.

Variable dict_order : list (PyObject * PyObject) -> list (PyObject * PyObject).

(** X9.  An integral value encoded from any integral type and decoded
    into any integral type [T2] comes out as the value converted to
    [T2]: the passage through the [long] of the runtime's integer loses
    nothing that [T2] can hold. *)
Theorem alloc_convert_integral (T1 T2 : integral) (num out : Z) :
  convert (TInt T2) (alloc_pyobject dict_order (EInt T1) num) out
  = (true, static_cast T2 num).
Proof using Type.
  simpl. unfold convert_integral, alloc_integral. simpl.
  by rewrite static_cast_through_long.
Qed.

(** X10.  The object an integral value is encoded as holds the value
    itself when it fits in a [long]; an [unsigned long] above the
    largest [long] is encoded as the negative integer [num - 2 ^ 64]. *)
Theorem alloc_integral_value (T : integral) (num : Z) :
  in_range T num ->
  alloc_pyobject dict_order (EInt T) num
  = PyInt (if num <=? int_max Long then num else num - 2 ^ 64).
Proof using Type.
  intros Hrange. simpl. unfold alloc_integral, PyInt_FromLong. f_equal.
  destruct (num <=? int_max Long) eqn:Hfit.
  - apply Z.leb_le in Hfit. apply static_cast_id.
    revert Hrange Hfit. unfold in_range, int_min, int_max.
    destruct T; simpl; lia.
  - apply Z.leb_gt in Hfit.
    revert Hrange Hfit. unfold in_range, int_min, int_max, static_cast.
    destruct T; simpl; try lia. intros Hrange Hfit.
    change (2 ^ 64 / 2) with 9223372036854775808.
    change (2 ^ 64) with 18446744073709551616 in *.
    change (2 ^ (64 - 1)) with 9223372036854775808 in *.
    rewrite <- (Z.mod_add _ (-1) 18446744073709551616) by lia.
    rewrite Z.mod_small by lia. lia.
Qed.

Lemma alloc_map_entries_dict {K V} (allock : K -> PyObject) (allocv : V -> PyObject)
    (container : list (K * V)) :
  forall table, exists table',
    alloc_map_entries dict_order allock allocv container (PyDict table) = PyDict table'.
Proof using Type.
  induction container as [| [key val] rest IH]; intros table; simpl.
  - by exists table.
  - destruct (negb (py_hashable (allock key))); [apply IH |].
    destruct (dict_update (allock key) (allocv val) table); apply IH.
Qed.

Lemma alloc_container_unhashable (e : etype) (val : nval (ntype_of e)) :
  container_type e = true ->
  py_hashable (alloc_pyobject dict_order e val) = false.
Proof using Type.
  destruct e; try done; intros _; simpl.
  - by rewrite alloc_list_objects.
  - by rewrite alloc_list_objects.
  - unfold alloc_map, PyDict_New.
    by destruct (alloc_map_entries_dict (alloc_pyobject dict_order e1)
                   (alloc_pyobject dict_order e2) val []) as [table ->].
Qed.

(** X11.  Encoding a sequence gives a list with one filled slot per
    element, the encoding of the element at position [i] in slot [i];
    a [std::list] and a [std::vector] with the same elements are encoded
    alike. *)
Theorem alloc_sequence_in_order (e : etype) (container : list (nval (ntype_of e))) :
  alloc_pyobject dict_order (EList e) container
  = alloc_pyobject dict_order (EVector e) container /\
  PyList_Size (alloc_pyobject dict_order (EVector e) container)
  = Z.of_nat (length container) /\
  forall (i : nat) (x : nval (ntype_of e)),
    container !! i = Some x ->
    PyList_GetItem (alloc_pyobject dict_order (EVector e) container) i
    = Some (alloc_pyobject dict_order e x).
Proof using Type.
  split; [done |]. simpl. rewrite alloc_list_objects. split.
  - simpl. by rewrite !length_fmap.
  - intros i x Hi. simpl. by rewrite !list_lookup_fmap, Hi.
Qed.

(** X12.  A map whose key type encodes to a list or a dictionary (a
    [std::vector], [std::list] or [std::map] key) is always encoded as
    the empty dictionary: the runtime refuses every key and the encoder
    does not notice. *)
Theorem alloc_map_container_key_empty (k v : etype)
    (container : list (nval (ntype_of k) * nval (ntype_of v))) :
  container_type k = true ->
  alloc_pyobject dict_order (EMap k v) container = PyDict [].
Proof using Type.
  intros Hk. simpl. unfold alloc_map, PyDict_New.
  induction container as [| [key val] rest IH]; simpl; [done |].
  by rewrite (alloc_container_unhashable k key Hk).
Qed.

(** X13.  A map whose keys are of bool, integral, string or byte-buffer
    type is encoded as a dictionary that holds exactly one entry per
    entry of the map, the encoded key with the encoded value, in the
    order of the runtime's table. *)
Theorem alloc_map_entries_complete (k v : etype)
    (container : list (nval (ntype_of k) * nval (ntype_of v))) :
  (forall table, dict_order table ≡ₚ table) ->
  key_type k = true ->
  Forall (fun entry => well_formed k entry.1) container ->
  key_sorted (less (ntype_of k)) container ->
  exists table,
    alloc_pyobject dict_order (EMap k v) container = PyDict table /\
    table ≡ₚ (fun entry => (alloc_pyobject dict_order k entry.1,
                            alloc_pyobject dict_order v entry.2)) <$> container.
Proof using Type.
  intros Hperm Hk Hwf Hsorted.
  destruct (alloc_map_entries_table dict_order Hperm k v Hk container [] [])
    as (table & ents & Hrun & Hrel & Hents).
  - constructor.
  - simpl. by apply (key_sorted_NoDup _ (less_strict_total k Hk)).
  - done.
  - exists table. split; [done |]. simpl in Hents. rewrite <- Hents.
    clear Hrun Hents. induction Hrel as [| entry e table ents He _ IH]; simpl.
    + done.
    + by rewrite IH, He.
Qed.

End AllocatorProperties.

Lemma alloc_integral_value_witness :
  in_range ULong (2 ^ 64 - 1) /\
  alloc_pyobject id (EInt ULong) (2 ^ 64 - 1) = PyInt (-1).
Proof.
  assert (H : in_range ULong (2 ^ 64 - 1))
    by (unfold in_range, int_min, int_max; simpl; lia).
  split; [exact H |].
  exact (alloc_integral_value id ULong (2 ^ 64 - 1) H).
Defined.


Lemma alloc_map_container_key_empty_witness :
  alloc_pyobject id (EMap (EVector (EInt Int)) EString)
    [([1; 2], "a"%string); ([3], "b"%string)]
  = PyDict [].
Proof.
  apply (alloc_map_container_key_empty id (EVector (EInt Int)) EString
           [([1; 2], "a"%string); ([3], "b"%string)]).
  reflexivity.
Defined.

Lemma alloc_map_entries_complete_witness :
  exists table,
    alloc_pyobject reverse (EMap (EInt Int) EString)
      [(1, "a"%string); (2, "b"%string)] = PyDict table /\
    table ≡ₚ [(PyInt 1, PyString "a"); (PyInt 2, PyString "b")].
Proof.
  apply (alloc_map_entries_complete reverse (EInt Int) EString
           [(1, "a"%string); (2, "b"%string)]
           (fun table => reverse_Permutation table) eq_refl).
  - repeat first [apply Forall_nil_2 | apply Forall_cons_2];
      simpl; unfold in_range, int_min, int_max; simpl; lia.
  - repeat first [apply SSorted_nil | apply SSorted_cons
                 | apply Forall_nil_2 | apply Forall_cons_2]; reflexivity.
Defined.

(** * Further properties of the calls *)

Section CallFurther.

Variable dict_order : list (PyObject * PyObject) -> list (PyObject * PyObject).
Variable load_function : Object -> string -> exception + PyObject.
Variable PyObject_CallObject : PyObject -> PyObject -> option PyObject.

Lemma add_tuple_var_object (tup : PyObject) (i : Z) (a : argument) :
  add_tuple_var dict_order tup i a
  = PyTuple_SetItem tup i (argument_object dict_order a).
Proof using Type. by destruct a. Qed.

Lemma PyTuple_SetItem_before (items : list (option PyObject)) (k : nat)
    (item : PyObject) :
  (length items < k)%nat ->
  PyTuple_SetItem (PyTuple items) (Z.of_nat (length items) - Z.of_nat k) item
  = PyTuple items.
Proof using Type.
  intros Hk. unfold PyTuple_SetItem.
  replace (0 <=? Z.of_nat (length items) - Z.of_nat k) with false; [done |].
  symmetry. apply Z.leb_gt. lia.
Qed.

Lemma PyTuple_SetItem_within (items : list (option PyObject)) (k : nat)
    (item : PyObject) :
  (0 < k <= length items)%nat ->
  PyTuple_SetItem (PyTuple items) (Z.of_nat (length items) - Z.of_nat k) item
  = PyTuple (<[(length items - k)%nat := Some item]> items).
Proof using Type.
  intros Hk. unfold PyTuple_SetItem.
  replace (Z.of_nat (length items) - Z.of_nat k)
    with (Z.of_nat (length items - k)) by lia.
  rewrite Nat2Z.id.
  assert (Hin : (0 <=? Z.of_nat (length items - k)) &&
                (Z.of_nat (length items - k) <? Z.of_nat (length items)) = true)
    by (apply andb_true_iff; split; [apply Z.leb_le | apply Z.ltb_lt]; lia).
  by rewrite Hin.
Qed.

(** X14.  [add_tuple_vars] on a tuple of any size: with [k] arguments and
    a tuple of [n] slots it overwrites the last [k] slots with the
    objects of the arguments, in order, and leaves the slots before them
    alone; when the tuple has fewer than [k] slots, the first [k - n]
    arguments find no slot and only the last [n] are stored. *)
Theorem add_tuple_vars_any_size (tail : list argument) :
  forall (items : list (option PyObject)) (head : argument),
    add_tuple_vars dict_order (PyTuple items) head tail
    = PyTuple
        (take (length items - S (length tail)) items ++
         (Some <$> (argument_object dict_order <$>
                      drop (S (length tail) - length items) (head :: tail)))).
Proof using Type.
  induction tail as [| next rest IH]; intros items head.
  - cbn [add_tuple_vars length]. rewrite add_tuple_var_object.
    change (PyTuple_Size (PyTuple items) - 1)
      with (Z.of_nat (length items) - Z.of_nat 1).
    destruct (decide (length items < 1)%nat) as [Hshort | Hlong].
    + rewrite PyTuple_SetItem_before by done.
      destruct items; [done | simpl in Hshort; lia].
    + rewrite PyTuple_SetItem_within by lia. f_equal.
      replace (1 - length items)%nat with 0%nat by lia. simpl.
      rewrite insert_take_drop by lia.
      by rewrite (drop_ge items (S (length items - 1))) by lia.
  - cbn [add_tuple_vars length]. rewrite add_tuple_var_object.
    replace (PyTuple_Size (PyTuple items) - Z.of_nat (S (length rest)) - 1)
      with (Z.of_nat (length items) - Z.of_nat (S (S (length rest))))
      by (simpl PyTuple_Size; lia).
    destruct (decide (length items < S (S (length rest)))%nat) as [Hshort | Hlong].
    + rewrite PyTuple_SetItem_before by done. rewrite IH. f_equal.
      replace (length items - S (length rest))%nat with 0%nat by lia.
      replace (length items - S (S (length rest)))%nat with 0%nat by lia.
      replace (S (S (length rest)) - length items)%nat
        with (S (S (length rest) - length items)) by lia.
      done.
    + rewrite PyTuple_SetItem_within by lia. rewrite IH, length_insert. f_equal.
      replace (S (length rest) - length items)%nat with 0%nat by lia.
      replace (S (S (length rest)) - length items)%nat with 0%nat by lia.
      cbn [drop fmap list_fmap].
      rewrite (cons_middle (Some (argument_object dict_order head))), app_assoc.
      f_equal.
      replace (length items - S (length rest))%nat
        with (S (length items - S (S (length rest)))) by lia.
      rewrite (take_S_r _ _ (Some (argument_object dict_order head))).
      * by rewrite take_insert_ge by lia.
      * apply list_lookup_insert_eq. lia.
Qed.

(** X15.  What [call_function] returns: an [Object] only when the
    callable was resolved and the runtime returned a result, and then an
    [Object] that holds this result, never an empty one; an exception
    that is either the one [load_function] threw or the
    [std::runtime_error] naming the function after a failed call. *)
Theorem call_function_outcome (self : Object) (name : string)
    (args : list argument) :
  match call_function dict_order load_function PyObject_CallObject self name args with
  | inr result =>
      exists func ret,
        load_function self name = inr func /\
        PyObject_CallObject func (call_tuple dict_order args) = Some ret /\
        py_obj result = Some ret
  | inl e =>
      load_function self name = inl e \/
      exists func,
        load_function self name = inr func /\
        PyObject_CallObject func (call_tuple dict_order args) = None /\
        e = runtime_error ("Failed to call function " ++ name)
  end.
Proof using Type.
  unfold call_function.
  destruct (load_function self name) as [e | func] eqn:Hload; [by left |].
  destruct (PyObject_CallObject func (call_tuple dict_order args)) as [ret |] eqn:Hcall.
  - by exists func, ret.
  - right. by exists func.
Qed.

(** X16.  When the callable returns the argument it was given at
    position [i], [call_function] returns an [Object] through which
    [Object::convert] sees the object made from the [i]-th native
    argument: converting the result is converting that object. *)
Theorem call_function_echo (self : Object) (name : string) (args : list argument)
    (func : PyObject) (i : nat) (a : argument) (t : ntype) (param : nval t) :
  load_function self name = inr func ->
  PyObject_CallObject func (call_tuple dict_order args)
  = PyTuple_GetItem (call_tuple dict_order args) i ->
  args !! i = Some a ->
  exists result,
    call_function dict_order load_function PyObject_CallObject self name args
    = inr result /\
    Object_convert t result param
    = Some (convert t (argument_object dict_order a) param).
Proof using Type.
  intros Hload Hecho Ha. exists (Object_from (argument_object dict_order a)).
  unfold call_function. rewrite Hload, Hecho, call_tuple_items. simpl.
  by rewrite !list_lookup_fmap, Ha.
Qed.

End CallFurther.

Lemma call_function_echo_witness :
  exists result,
    call_function id (fun _ _ => inr (PyString "second"))
      (fun _ tup => PyTuple_GetItem tup 1) (Object_from PyNone) "second"
      [ArgNative (EInt Int) 7; ArgNative (EVector (EInt Short)) [1; 2]]
    = inr result /\
    Object_convert (TList (TInt Long)) result [0]
    = Some (true, [0; 1; 2]).
Proof.
  apply (call_function_echo id (fun _ _ => inr (PyString "second"))
           (fun _ tup => PyTuple_GetItem tup 1) (Object_from PyNone) "second"
           [ArgNative (EInt Int) 7; ArgNative (EVector (EInt Short)) [1; 2]]
           (PyString "second") 1 (ArgNative (EVector (EInt Short)) [1; 2])
           (TList (TInt Long)) [0]); reflexivity.
Defined.

(** * Further properties of the reference counts *)

Lemma held_refs_fold (h : Refcount.heap) (a : Refcount.addr) :
  Refcount.held_refs h a
  = map_fold (fun _ o n => (count_refs a (Refcount.ob_shape o) + n)%nat) 0%nat
      (Refcount.objects h).
Proof. reflexivity. Qed.

Lemma held_refs_new (m : gmap Refcount.addr Refcount.object) (n n' : Refcount.addr)
    (i : Refcount.addr) (o : Refcount.object) (a : Refcount.addr) :
  m !! i = None ->
  Refcount.held_refs {| Refcount.objects := <[i := o]> m; Refcount.next_addr := n' |} a
  = (count_refs a (Refcount.ob_shape o) +
     Refcount.held_refs {| Refcount.objects := m; Refcount.next_addr := n |} a)%nat.
Proof.
  intros Hnew. rewrite !held_refs_fold. simpl.
  rewrite map_fold_insert_L; [done | | done].
  intros. lia.
Qed.

Lemma held_refs_update (m : gmap Refcount.addr Refcount.object) (n n' : Refcount.addr)
    (i : Refcount.addr) (o o' : Refcount.object) (a : Refcount.addr) :
  m !! i = Some o ->
  (Refcount.held_refs {| Refcount.objects := <[i := o']> m; Refcount.next_addr := n' |} a
   + count_refs a (Refcount.ob_shape o)
   = count_refs a (Refcount.ob_shape o') +
     Refcount.held_refs {| Refcount.objects := m; Refcount.next_addr := n |} a)%nat.
Proof.
  intros Hold. rewrite !held_refs_fold. simpl.
  rewrite <- (insert_delete_eq m i o').
  rewrite (map_fold_insert_L _ _ i o' (delete i m)); [| intros; lia | apply lookup_delete_eq].
  rewrite (map_fold_delete_L _ _ i o m); [| intros; lia | done].
  lia.
Qed.

Lemma count_refs_fill (a item : Refcount.addr) (filled rest : list (option Refcount.addr)) :
  count_refs a (Refcount.ListOf (filled ++ Some item :: rest))
  = (count_refs a (Refcount.ListOf (filled ++ None :: rest)) +
     if bool_decide (item = a) then 1 else 0)%nat.
Proof.
  unfold count_refs. simpl. rewrite !omap_app. simpl.
  rewrite !filter_app, filter_cons, !length_app.
  case_bool_decide; case_decide; try done; simpl; lia.
Qed.

Lemma bind_Some {A B} (m : Refcount.M A) (f : A -> Refcount.M B)
    (h h' : Refcount.heap) (x : A) :
  m h = Some (x, h') -> Refcount.bind m f h = f x h'.
Proof. intros Hm. unfold Refcount.bind. by rewrite Hm. Qed.

Lemma PyList_SetItem_empty_slot (lst item : Refcount.addr) (i : nat)
    (h : Refcount.heap) (o : Refcount.object) (items : list (option Refcount.addr)) :
  Refcount.objects h !! lst = Some o ->
  Refcount.ob_shape o = Refcount.ListOf items ->
  items !! i = Some None ->
  Refcount.PyList_SetItem lst i item h
  = Some (tt, {| Refcount.objects :=
                   <[lst := {| Refcount.ob_refcnt := Refcount.ob_refcnt o;
                               Refcount.ob_shape :=
                                 Refcount.ListOf (<[i := Some item]> items) |}]>
                     (Refcount.objects h);
                 Refcount.next_addr := Refcount.next_addr h |}).
Proof.
  intros Hcell Hshape Hslot.
  unfold Refcount.PyList_SetItem, Refcount.bind, Refcount.get_object.
  rewrite Hcell, Hshape, Hslot. reflexivity.
Qed.
